(** * Nissan chatbot front end: chat streaming client, callback form,
      voice interface, and the session Run Gate.

    The development embeds the TypeScript sources

      - [frontend/lib/api.ts]                     (module [Api]),
      - [frontend/components/ChatInterface.tsx]   (module [ChatInterface]),
      - [frontend/components/CallbackForm.tsx]    (module [CallbackForm]),
      - [frontend/components/VoiceInterface.tsx]  (module [VoiceInterface]),

    as pure functions over explicit component state.  What the browser
    supplies (clock readings, the outcome of a [fetch], the chunks a stream
    reader delivers) is an argument of the function that consumes it, and
    every network request a handler issues is returned next to the new state.

    Strings are sequences of code units; the model keeps to code units below
    256, so a JavaScript string is a [string] here and [length] is the
    JavaScript [length]. *)

From Stdlib Require Import String Ascii List ZArith Lia Bool Arith.
From Stdlib Require Import DecimalString DecimalZ Sorted.
Import ListNotations.
Open Scope string_scope.
Open Scope list_scope.
Set Warnings "-register-all".

(* ================================================================== *)
(** * The JavaScript primitives the sources rely on *)
(* ================================================================== *)

Module JS.

(** ECMAScript [WhiteSpace] and [LineTerminator] code units below 256:
    TAB, LF, VT, FF, CR, SPACE and NO-BREAK SPACE.  Both [String.trim] and
    the regular expression class [\s] use exactly this set. *)
Definition isWhiteSpace (c : ascii) : bool :=
  let n := nat_of_ascii c in
  (((9 <=? n) && (n <=? 13)) || (n =? 32) || (n =? 160))%nat.

(** The regular expression class [\d] (no unicode flag): '0'..'9'. *)
Definition isDigit (c : ascii) : bool :=
  let n := nat_of_ascii c in
  ((48 <=? n) && (n <=? 57))%nat.

Fixpoint trimStart (s : string) : string :=
  match s with
  | EmptyString => EmptyString
  | String c r => if isWhiteSpace c then trimStart r else s
  end.

Fixpoint trimEnd (s : string) : string :=
  match s with
  | EmptyString => EmptyString
  | String c r =>
      match trimEnd r with
      | EmptyString => if isWhiteSpace c then EmptyString else String c EmptyString
      | r' => String c r'
      end
  end.

(** [s.trim()] *)
Definition trim (s : string) : string := trimEnd (trimStart s).

(** [s.startsWith(p)] *)
Definition startsWith (s p : string) : bool := String.prefix p s.

(** [s.slice(n)] for a non-negative [n]. *)
Fixpoint slice (n : nat) (s : string) : string :=
  match n, s with
  | O, _ => s
  | S _, EmptyString => EmptyString
  | S k, String _ r => slice k r
  end.

Definition LF : ascii := ascii_of_nat 10.

(** [s.split("\n")]: never empty, the empty string splits into [[""]]. *)
Fixpoint split_newline (s : string) : list string :=
  match s with
  | EmptyString => [EmptyString]
  | String c r =>
      if Ascii.eqb c LF then EmptyString :: split_newline r
      else match split_newline r with
           | [] => [String c EmptyString]
           | l :: ls => String c l :: ls
           end
  end.

(** [s.replace(/C/g, "")] for a character class [C]: every code unit of
    the class is deleted. *)
Fixpoint delete_all (C : ascii -> bool) (s : string) : string :=
  match s with
  | EmptyString => EmptyString
  | String c r => if C c then delete_all C r else String c (delete_all C r)
  end.

(** The code units of a string, in order. *)
Fixpoint chars (s : string) : list ascii :=
  match s with
  | EmptyString => []
  | String c r => c :: chars r
  end.

(** [n.toString()] for an integral number. *)
Definition Number_toString (n : Z) : string :=
  NilZero.string_of_int (Z.to_int n).

(** The values [JSON.parse] and [response.json()] produce.  A number is
    kept as the string [Number.prototype.toString] prints for it (["0"] for
    both zeros); an object is the list of its own properties, whose keys
    are pairwise distinct. *)
Inductive JSON : Type :=
| JNull
| JBool (b : bool)
| JNumber (shown : string)
| JString (s : string)
| JArray (items : list JSON)
| JObject (members : list (string * JSON)).

(** A value read from a property or a variable: [None] is [undefined]. *)
Definition Value : Type := option JSON.

Fixpoint own (members : list (string * JSON)) (key : string) : Value :=
  match members with
  | [] => None
  | (k, v) :: rest => if String.eqb k key then Some v else own rest key
  end.

(** [v.key] for a [v] that is neither [null] nor [undefined] and a [key]
    that no prototype defines ([text], [session_id], [transcript]): only an
    object can answer with something else than [undefined]. *)
Definition property (v : JSON) (key : string) : Value :=
  match v with
  | JObject members => own members key
  | _ => None
  end.

(** [ToBoolean] *)
Definition truthy (v : Value) : bool :=
  match v with
  | None => false
  | Some JNull => false
  | Some (JBool b) => b
  | Some (JNumber shown) => negb (String.eqb shown "0")
  | Some (JString s) => negb (String.eqb s "")
  | Some (JArray _) => true
  | Some (JObject _) => true
  end.

(** What [str + v] appends: [ToString(ToPrimitive(v))].  [None] is the
    [TypeError] raised for an object whose own [toString] property hides
    [Object.prototype.toString] (a parsed value is never callable).  An
    array prints as its elements joined by commas, [null] elements as the
    empty string. *)
Fixpoint ToString (v : JSON) : option string :=
  match v with
  | JNull => Some "null"
  | JBool true => Some "true"
  | JBool false => Some "false"
  | JNumber shown => Some shown
  | JString s => Some s
  | JArray items =>
      (fix join (l : list JSON) : option string :=
         match l with
         | [] => Some ""
         | x :: rest =>
             let shown_x := match x with JNull => Some "" | _ => ToString x end in
             match rest with
             | [] => shown_x
             | _ :: _ =>
                 match shown_x, join rest with
                 | Some a, Some b => Some (a ++ "," ++ b)%string
                 | _, _ => None
                 end
             end
         end) items
  | JObject members =>
      match own members "toString" with
      | Some _ => None
      | None => Some "[object Object]"
      end
  end.

End JS.

Import JS.

(* ================================================================== *)
(** * What a [fetch] can turn out to be *)
(* ================================================================== *)

Module Http.

(** How the reads of [response.body.getReader()] end: with [done], or with
    a rejected [read()]. *)
Inductive ReadEnd : Type := EndOfStream | ReadRejected.

(** A streamed body: the decoded text of each chunk, in the order the
    reader delivers them, and the way the stream ends. *)
Record Body : Type := { chunks : list string; ending : ReadEnd }.

Record Response : Type := { ok : bool; body : option Body }.

Inductive FetchOutcome : Type :=
| FetchRejected
| FetchResolved (response : Response).

(** An [ok] response whose body delivers the chunks [cs] and ends as [e]. *)
Definition streamed (cs : list string) (e : ReadEnd) : FetchOutcome :=
  FetchResolved {| ok := true; body := Some {| chunks := cs; ending := e |} |}.

(** The request errors: the [fetch] is rejected, the status is not OK, the
    response has no body, or a read of the stream fails. *)
Definition request_errors (f : FetchOutcome) : bool :=
  match f with
  | FetchRejected => true
  | FetchResolved r =>
      negb (ok r)
      || match body r with
         | None => true
         | Some b =>
             match ending b with
             | ReadRejected => true
             | EndOfStream => false
             end
         end
  end.

End Http.

Import Http.

(* ================================================================== *)
(** * frontend/lib/api.ts *)
(* ================================================================== *)

Module Api.

(** How a loop body leaves its loop. *)
Inductive LoopExit : Type := Fallthrough | Returned.

(** How the generator finishes. *)
Inductive Completion : Type := Finished | Threw.

Section StreamChatMessage.

(** [JSON.parse]: [None] is the [SyntaxError]. *)
Variable JSON_parse : string -> option JSON.

(** The [for (const line of lines)] loop of [streamChatMessage]: the
    values it yields, and whether it ran to the end of [lines] or left
    through [return]. *)
Fixpoint stream_lines (lines : list string) : list JSON * LoopExit :=
  match lines with
  | [] => ([], Fallthrough)
  | line :: rest =>
      if startsWith line "data: " then
        let data := slice 6 line in
        if String.eqb data "[DONE]" then ([], Returned)
        else
          match JSON_parse data with
          | Some v => let (ys, e) := stream_lines rest in (v :: ys, e)
          | None => stream_lines rest
          end
      else stream_lines rest
  end.

(** The [while (true)] loop over the reads that deliver a chunk. *)
Fixpoint stream_chunks (cs : list string) : list JSON * LoopExit :=
  match cs with
  | [] => ([], Fallthrough)
  | chunk :: rest =>
      let (ys, e) := stream_lines (split_newline chunk) in
      match e with
      | Returned => (ys, Returned)
      | Fallthrough => let (zs, e') := stream_chunks rest in (ys ++ zs, e')
      end
  end.

(** [streamChatMessage(message, sessionId)] once its [fetch] has settled:
    the sequence of yielded values and the way the generator ends. *)
Definition streamChatMessage (f : FetchOutcome) : list JSON * Completion :=
  match f with
  | FetchRejected => ([], Threw)
  | FetchResolved r =>
      if negb (ok r) then ([], Threw)
      else
        match body r with
        | None => ([], Threw)
        | Some b =>
            let (ys, e) := stream_chunks (chunks b) in
            match e, ending b with
            | Returned, _ => (ys, Finished)
            | Fallthrough, EndOfStream => (ys, Finished)
            | Fallthrough, ReadRejected => (ys, Threw)
            end
        end
  end.

(** ** The same behaviour, said on the sequence of event lines *)

(** All lines of all chunks, in arrival order. *)
Definition event_lines (cs : list string) : list string :=
  flat_map split_newline cs.

(** The terminal sentinel line. *)
Definition is_sentinel (line : string) : bool :=
  String.eqb line "data: [DONE]".

Fixpoint before_sentinel (lines : list string) : list string :=
  match lines with
  | [] => []
  | l :: rest => if is_sentinel l then [] else l :: before_sentinel rest
  end.

(** The payload of a line prefixed ["data: "], parsed; a line without
    the prefix, or whose payload does not parse, carries none. *)
Definition parsed_payload (line : string) : option JSON :=
  if startsWith line "data: " then JSON_parse (slice 6 line) else None.

Fixpoint payloads (lines : list string) : list JSON :=
  match lines with
  | [] => []
  | l :: rest =>
      match parsed_payload l with
      | Some v => v :: payloads rest
      | None => payloads rest
      end
  end.

End StreamChatMessage.

(** No payload of the stream has white space around it: trimming the rest
    of a line prefixed ["data: "] leaves it as it is. *)
Definition payloads_trimmed (cs : list string) : bool :=
  forallb (fun line =>
             negb (startsWith line "data: ")
             || String.eqb (trim (slice 6 line)) (slice 6 line))
          (event_lines cs).

End Api.

(* ================================================================== *)
(** * frontend/components/ChatInterface.tsx *)
(* ================================================================== *)

Module ChatInterface.

Inductive Role : Type := user | assistant.

Record Message : Type := {
  id : string;
  role : Role;
  content : string;
  timestamp : Z
}.

(** One look at the clock: what [Date.now()] and [new Date()] answer. *)
Record Clock : Type := { Date_now : Z; new_Date : Z }.

(** The component state: the [useState] cells and [streamingRef.current].
    [sessionId] starts as [null]. *)
Record State : Type := {
  messages : list Message;
  input : string;
  isLoading : bool;
  streamingContent : string;
  sessionId : JSON;
  showCallbackForm : bool;
  callbackSuccess : bool;
  streamingRef : string
}.

Definition initial : State :=
  {| messages := []; input := ""; isLoading := false; streamingContent := "";
     sessionId := JNull; showCallbackForm := false; callbackSuccess := false;
     streamingRef := "" |}.

Definition setMessages (f : list Message -> list Message) (st : State) : State :=
  {| messages := f (messages st); input := input st; isLoading := isLoading st;
     streamingContent := streamingContent st; sessionId := sessionId st;
     showCallbackForm := showCallbackForm st; callbackSuccess := callbackSuccess st;
     streamingRef := streamingRef st |}.

Definition setInput (v : string) (st : State) : State :=
  {| messages := messages st; input := v; isLoading := isLoading st;
     streamingContent := streamingContent st; sessionId := sessionId st;
     showCallbackForm := showCallbackForm st; callbackSuccess := callbackSuccess st;
     streamingRef := streamingRef st |}.

Definition setIsLoading (v : bool) (st : State) : State :=
  {| messages := messages st; input := input st; isLoading := v;
     streamingContent := streamingContent st; sessionId := sessionId st;
     showCallbackForm := showCallbackForm st; callbackSuccess := callbackSuccess st;
     streamingRef := streamingRef st |}.

Definition setStreamingContent (v : string) (st : State) : State :=
  {| messages := messages st; input := input st; isLoading := isLoading st;
     streamingContent := v; sessionId := sessionId st;
     showCallbackForm := showCallbackForm st; callbackSuccess := callbackSuccess st;
     streamingRef := streamingRef st |}.

Definition setSessionId (v : JSON) (st : State) : State :=
  {| messages := messages st; input := input st; isLoading := isLoading st;
     streamingContent := streamingContent st; sessionId := v;
     showCallbackForm := showCallbackForm st; callbackSuccess := callbackSuccess st;
     streamingRef := streamingRef st |}.

Definition setShowCallbackForm (v : bool) (st : State) : State :=
  {| messages := messages st; input := input st; isLoading := isLoading st;
     streamingContent := streamingContent st; sessionId := sessionId st;
     showCallbackForm := v; callbackSuccess := callbackSuccess st;
     streamingRef := streamingRef st |}.

Definition setCallbackSuccess (v : bool) (st : State) : State :=
  {| messages := messages st; input := input st; isLoading := isLoading st;
     streamingContent := streamingContent st; sessionId := sessionId st;
     showCallbackForm := showCallbackForm st; callbackSuccess := v;
     streamingRef := streamingRef st |}.

(** [streamingRef.current = v] *)
Definition set_streamingRef (v : string) (st : State) : State :=
  {| messages := messages st; input := input st; isLoading := isLoading st;
     streamingContent := streamingContent st; sessionId := sessionId st;
     showCallbackForm := showCallbackForm st; callbackSuccess := callbackSuccess st;
     streamingRef := v |}.

(** The body posted to [/chat/stream]. *)
Record Request : Type := { message : string; session_id : JSON }.

Definition fallback : string :=
  "I'm sorry, I encountered an error. Please try again.".

(** [sendMessage] up to its [await fetch(...)]: the guard, the user
    message, the loading flag, the cleared buffer, and the request.
    [None] is the early [return]. *)
Definition sendMessage_begin (st : State) (messageText : string) (clk : Clock)
  : option (State * Request) :=
  if String.eqb (trim messageText) "" || isLoading st then None
  else
    let userMessage :=
      {| id := Number_toString (Date_now clk); role := user;
         content := trim messageText; timestamp := new_Date clk |} in
    let st1 := setMessages (fun prev => prev ++ [userMessage]) st in
    let st2 := setInput "" st1 in
    let st3 := setIsLoading true st2 in
    let st4 := set_streamingRef "" st3 in
    let st5 := setStreamingContent "" st4 in
    Some (st5, {| message := trim messageText; session_id := sessionId st |}).

(** The same start for a call whose closure is not of the latest render:
    the guard tests the [isLoading], and the request carries the
    [sessionId], of the render [seen] that created the handler, while the
    setters act on the state [st] as it is now ([setMessages] through its
    updater function, the others by overwriting). *)
Definition sendMessage_called (seen st : State) (messageText : string) (clk : Clock)
  : option (State * Request) :=
  if String.eqb (trim messageText) "" || isLoading seen then None
  else
    let userMessage :=
      {| id := Number_toString (Date_now clk); role := user;
         content := trim messageText; timestamp := new_Date clk |} in
    let st1 := setMessages (fun prev => prev ++ [userMessage]) st in
    let st2 := setInput "" st1 in
    let st3 := setIsLoading true st2 in
    let st4 := set_streamingRef "" st3 in
    let st5 := setStreamingContent "" st4 in
    Some (st5, {| message := trim messageText; session_id := sessionId seen |}).

(** The assistant message of a stream read to its end, then [finally]. *)
Definition sendMessage_done (st : State) (clk : Clock) : State :=
  let assistantMessage :=
    {| id := Number_toString (Date_now clk + 1); role := assistant;
       content := streamingRef st; timestamp := new_Date clk |} in
  let st1 := setMessages (fun prev => prev ++ [assistantMessage]) st in
  let st2 := set_streamingRef "" st1 in
  let st3 := setStreamingContent "" st2 in
  setIsLoading false st3.

(** The [catch] block, then [finally]. *)
Definition sendMessage_catch (st : State) (clk : Clock) : State :=
  let errorMessage :=
    {| id := Number_toString (Date_now clk + 1); role := assistant;
       content := fallback; timestamp := new_Date clk |} in
  let st1 := setMessages (fun prev => prev ++ [errorMessage]) st in
  let st2 := set_streamingRef "" st1 in
  let st3 := setStreamingContent "" st2 in
  setIsLoading false st3.

Section SendMessage.

(** [JSON.parse]: [None] is the [SyntaxError]. *)
Variable JSON_parse : string -> option JSON.

(** The body of [for (const line of lines)]; the second component is
    the local [newSessionId].  Everything thrown inside the inner [try]
    leaves the line without further effect. *)
Definition on_line (acc : State * JSON) (line : string) : State * JSON :=
  let (st, newSessionId) := acc in
  if startsWith line "data: " then
    let data := trim (slice 6 line) in
    if String.eqb data "[DONE]" then acc
    else
      match JSON_parse data with
      | None => acc
      | Some JNull => acc
      | Some parsed =>
          let appended : option State :=
            match property parsed "text" with
            | Some t =>
                if truthy (Some t) then
                  match ToString t with
                  | Some shown =>
                      let r := (streamingRef st ++ shown)%string in
                      Some (setStreamingContent r (set_streamingRef r st))
                  | None => None
                  end
                else Some st
            | None => Some st
            end in
          match appended with
          | None => acc
          | Some st1 =>
              match property parsed "session_id" with
              | Some sid =>
                  if truthy (Some sid) && negb (truthy (Some newSessionId))
                  then (setSessionId sid st1, sid)
                  else (st1, newSessionId)
              | None => (st1, newSessionId)
              end
          end
      end
  else acc.

(** One read that delivers a chunk. *)
Definition on_chunk (acc : State * JSON) (text : string) : State * JSON :=
  fold_left on_line (split_newline text) acc.

(** The [while (true)] loop over the reads that deliver a chunk. *)
Definition read_loop (acc : State * JSON) (cs : list string) : State * JSON :=
  fold_left on_chunk cs acc.

(** [sendMessage(messageText)]: the guard and the start at [clk], the
    [fetch] that turns out as [f], and the end at [clk']. *)
Definition sendMessage (st : State) (messageText : string) (clk : Clock)
           (f : FetchOutcome) (clk' : Clock) : State * list Request :=
  match sendMessage_begin st messageText clk with
  | None => (st, [])
  | Some (st1, req) =>
      match f with
      | FetchRejected => (sendMessage_catch st1 clk', [req])
      | FetchResolved r =>
          if negb (ok r) then (sendMessage_catch st1 clk', [req])
          else
            match body r with
            | None => (sendMessage_catch st1 clk', [req])
            | Some b =>
                let (st2, _) := read_loop (st1, sessionId st) (chunks b) in
                match ending b with
                | EndOfStream => (sendMessage_done st2 clk', [req])
                | ReadRejected => (sendMessage_catch st2 clk', [req])
                end
            end
      end
  end.

(** ** A conversation: one turn after the other *)

Record Turn : Type := {
  turn_text : string;
  turn_start : Clock;
  turn_fetch : FetchOutcome;
  turn_end : Clock
}.

Definition take_turn (st : State) (t : Turn) : State * list Request :=
  sendMessage st (turn_text t) (turn_start t) (turn_fetch t) (turn_end t).

Fixpoint conversation (st : State) (turns : list Turn) : State * list Request :=
  match turns with
  | [] => (st, [])
  | t :: rest =>
      let (st1, sent1) := take_turn st t in
      let (st2, sent2) := conversation st1 rest in
      (st2, sent1 ++ sent2)
  end.

(** ** The component between its awaits

    A call of [sendMessage] that passed the guard stays suspended at
    [await fetch(...)] and then at each [await reader.read()], while the
    component keeps handling events.  A [Machine] holds the component
    state, the state as the latest render saw it, the suspended calls with
    what their closures hold, and the requests issued so far.  A handler
    reads [isLoading] and [sessionId] as the render that created it saw
    them; the component re-renders at [Rendered]. *)

Inductive Activation : Type :=
| AwaitingFetch (sessionId_seen : JSON)
| Reading (newSessionId : JSON).

Record Machine : Type := {
  ui : State;
  rendered : State;
  running : list Activation;
  sent : list Request
}.

Definition start : Machine :=
  {| ui := initial; rendered := initial; running := []; sent := [] |}.

(** What [await fetch(...)] gives back: a rejection, or a response with
    its [ok] flag and with or without a [body]. *)
Inductive Head : Type := HeadRejected | HeadArrived (is_ok has_body : bool).

(** What one [await reader.read()] gives back. *)
Inductive Read : Type := Chunk (text : string) | Done | Failed.

Inductive Event : Type :=
| Send (messageText : string) (clk : Clock)
    (* handleSubmit, handleKeyDown, a suggested question *)
| Rendered                                  (* the component re-renders *)
| Typed (value : string)                    (* the textarea's onChange *)
| CallbackFormShown (shown : bool)          (* the call button, onClose *)
| CallbackBadge (lit : bool)                (* onSuccess, its 10 s timer *)
| FetchSettled (i : nat) (h : Head) (clk : Clock)
| ReadSettled (i : nat) (r : Read) (clk : Clock).

Fixpoint drop_at {A : Type} (i : nat) (l : list A) : list A :=
  match i, l with
  | _, [] => []
  | O, _ :: rest => rest
  | S k, x :: rest => x :: drop_at k rest
  end.

Fixpoint put_at {A : Type} (i : nat) (a : A) (l : list A) : list A :=
  match i, l with
  | _, [] => []
  | O, _ :: rest => a :: rest
  | S k, x :: rest => x :: put_at k a rest
  end.

Definition step (m : Machine) (e : Event) : Machine :=
  match e with
  | Send messageText clk =>
      match sendMessage_called (rendered m) (ui m) messageText clk with
      | None => m
      | Some (st, req) =>
          {| ui := st; rendered := rendered m;
             running := running m ++ [AwaitingFetch (sessionId (rendered m))];
             sent := sent m ++ [req] |}
      end
  | Rendered =>
      {| ui := ui m; rendered := ui m; running := running m; sent := sent m |}
  | Typed value =>
      {| ui := setInput value (ui m); rendered := rendered m;
         running := running m; sent := sent m |}
  | CallbackFormShown shown =>
      {| ui := setShowCallbackForm shown (ui m); rendered := rendered m;
         running := running m; sent := sent m |}
  | CallbackBadge lit =>
      {| ui := setCallbackSuccess lit (ui m); rendered := rendered m;
         running := running m; sent := sent m |}
  | FetchSettled i h clk =>
      match nth_error (running m) i with
      | Some (AwaitingFetch seen) =>
          match h with
          | HeadArrived true true =>
              {| ui := ui m; rendered := rendered m;
                 running := put_at i (Reading seen) (running m);
                 sent := sent m |}
          | _ =>
              {| ui := sendMessage_catch (ui m) clk; rendered := rendered m;
                 running := drop_at i (running m); sent := sent m |}
          end
      | _ => m
      end
  | ReadSettled i r clk =>
      match nth_error (running m) i with
      | Some (Reading newSessionId) =>
          match r with
          | Chunk text =>
              let (st, newSessionId') := on_chunk (ui m, newSessionId) text in
              {| ui := st; rendered := rendered m;
                 running := put_at i (Reading newSessionId') (running m);
                 sent := sent m |}
          | Done =>
              {| ui := sendMessage_done (ui m) clk; rendered := rendered m;
                 running := drop_at i (running m); sent := sent m |}
          | Failed =>
              {| ui := sendMessage_catch (ui m) clk; rendered := rendered m;
                 running := drop_at i (running m); sent := sent m |}
          end
      | _ => m
      end
  end.

Definition run (m : Machine) (es : list Event) : Machine := fold_left step es m.

(** The events of one undisturbed turn whose call is the [i]-th
    suspended one. *)
Definition events_of_fetch (i : nat) (f : FetchOutcome) (clk' : Clock) : list Event :=
  match f with
  | FetchRejected => [FetchSettled i HeadRejected clk']
  | FetchResolved r =>
      match body r with
      | None => [FetchSettled i (HeadArrived (ok r) false) clk']
      | Some b =>
          if ok r then
            FetchSettled i (HeadArrived true true) clk'
              :: map (fun c => ReadSettled i (Chunk c) clk') (chunks b)
              ++ [ReadSettled i
                    (match ending b with EndOfStream => Done | ReadRejected => Failed end)
                    clk']
          else [FetchSettled i (HeadArrived false true) clk']
      end
  end.

(** ** The events of the [/chat/stream] endpoint as the client reads them *)

(** The payload a line contributes: the line is prefixed ["data: "], its
    trimmed rest is not the sentinel, and [JSON.parse] accepts it. *)
Definition event_of_line (line : string) : option JSON :=
  if startsWith line "data: " then
    let data := trim (slice 6 line) in
    if String.eqb data "[DONE]" then None else JSON_parse data
  else None.

Fixpoint events_of_lines (lines : list string) : list JSON :=
  match lines with
  | [] => []
  | l :: rest =>
      match event_of_line l with
      | Some v => v :: events_of_lines rest
      | None => events_of_lines rest
      end
  end.

(** The parsed events of a stream, in arrival order. *)
Definition parsed_events (cs : list string) : list JSON :=
  events_of_lines (flat_map split_newline cs).




(** What an event adds to the buffer, whatever its shape: its [text] as
    string concatenation renders it; nothing when the field is absent, empty
    or otherwise falsy, or cannot be rendered.  For a string [text] this is
    the string. *)
Definition delta_text (v : JSON) : string :=
  match property v "text" with
  | Some t =>
      if truthy (Some t) then
        match ToString t with
        | Some shown => shown
        | None => ""
        end
      else ""
  | None => ""
  end.

(** The [session_id] an event carries, if it carries a non-empty one. *)
Definition event_session (v : JSON) : option string :=
  match property v "session_id" with
  | Some (JString s) => if String.eqb s "" then None else Some s
  | _ => None
  end.

Fixpoint first_session (evs : list JSON) : option string :=
  match evs with
  | [] => None
  | v :: rest =>
      match event_session v with
      | Some s => Some s
      | None => first_session rest
      end
  end.

Definition concat_texts (l : list string) : string :=
  fold_right String.append "" l.

(** The events of the stream as the endpoint sent it: those of the lines
    of the whole text received, wherever the reads cut it. *)
Definition stream_events (cs : list string) : list JSON :=
  events_of_lines (split_newline (concat_texts cs)).



(** Everything of the state that reading a stream leaves alone. *)
Definition same_frame (st st' : State) : Prop :=
  messages st' = messages st /\ input st' = input st
  /\ isLoading st' = isLoading st
  /\ showCallbackForm st' = showCallbackForm st
  /\ callbackSuccess st' = callbackSuccess st.

(** A request is in flight for every suspended call. *)
Definition in_flight (m : Machine) : nat := length (running m).

(** Every call of [sendMessage] is made right after a render, so that its
    handler has seen what all earlier events left; [just_rendered] says
    whether a render is the last thing that happened so far. *)
Fixpoint sends_follow_render (just_rendered : bool) (es : list Event) : bool :=
  match es with
  | [] => true
  | Rendered :: rest => sends_follow_render true rest
  | Send _ _ :: rest => just_rendered && sends_follow_render false rest
  | _ :: rest => sends_follow_render false rest
  end.

End SendMessage.

(** ** What is rendered *)

Definition SUGGESTED_QUESTIONS : list string :=
  [ "What is the Nissan Qashqai e-POWER?";
    "Tell me about the Nissan Juke";
    "What electric vehicles does Nissan offer?";
    "What are the X-Trail features?" ].

(** [messages.length === 0 && !streamingContent]: the welcome screen with
    the suggested questions is rendered instead of the transcript. *)
Definition shows_welcome (st : State) : bool :=
  Nat.eqb (length (messages st)) 0 && String.eqb (streamingContent st) "".

(** [isLoading || streamingContent]: the streaming bubble is rendered. *)
Definition shows_streaming (st : State) : bool :=
  isLoading st || negb (String.eqb (streamingContent st) "").

(** The clock does not run backwards within a turn, and a turn starts
    more than a millisecond after the one before it ended ([floor] is the
    last reading so far, plus one). *)
Fixpoint paced (floor : Z) (turns : list Turn) : Prop :=
  match turns with
  | [] => True
  | t :: rest =>
      (floor < Date_now (turn_start t))%Z
      /\ (Date_now (turn_start t) <= Date_now (turn_end t))%Z
      /\ paced (Date_now (turn_end t) + 1) rest
  end.

(** ** What holds of the component whatever happens to it *)

Definition other (r : Role) : Role :=
  match r with
  | user => assistant
  | assistant => user
  end.

Definition role_eqb (a b : Role) : bool :=
  match a, b with
  | user, user | assistant, assistant => true
  | _, _ => false
  end.

(** The roles of [ms] take turns, the first being [next]. *)
Fixpoint alternates (next : Role) (ms : list Message) : bool :=
  match ms with
  | [] => true
  | m :: rest => role_eqb (role m) next && alternates (other next) rest
  end.

(** The session a suspended call holds in its closure. *)
Definition closure_session (a : Activation) : JSON :=
  match a with
  | AwaitingFetch seen => seen
  | Reading newSessionId => newSessionId
  end.

Record Consistent (m : Machine) : Prop := {
  one_call : length (running m) <= 1;
  loading_while_called :
    isLoading (ui m) = negb (Nat.eqb (length (running m)) 0);
  display_is_buffer : streamingContent (ui m) = streamingRef (ui m);
  buffer_empty_when_idle : isLoading (ui m) = false -> streamingRef (ui m) = "";
  roles_take_turns : alternates user (messages (ui m)) = true;
  messages_per_request :
    length (messages (ui m)) + (if isLoading (ui m) then 1 else 0)
    = 2 * length (sent m);
  closures_hold_session :
    Forall (fun a => closure_session a = sessionId (ui m)) (running m);
  no_session_before_first_send : sent m = [] -> sessionId (ui m) = JNull
}.

End ChatInterface.

(* ================================================================== *)
(** * frontend/components/CallbackForm.tsx *)
(* ================================================================== *)

Module CallbackForm.

(** An entry of [COUNTRIES]; the flag, which is only rendered, is left out. *)
Record Country : Type := { code : string; name : string; lang : string }.

Definition COUNTRIES : list Country :=
  [ {| code := "+44"; name := "United Kingdom"; lang := "en" |};
    {| code := "+33"; name := "France"; lang := "fr" |};
    {| code := "+49"; name := "Germany"; lang := "de" |};
    {| code := "+34"; name := "Spain"; lang := "es" |};
    {| code := "+39"; name := "Italy"; lang := "it" |};
    {| code := "+31"; name := "Netherlands"; lang := "nl" |};
    {| code := "+32"; name := "Belgium"; lang := "fr" |};
    {| code := "+351"; name := "Portugal"; lang := "pt" |};
    {| code := "+43"; name := "Austria"; lang := "de" |};
    {| code := "+41"; name := "Switzerland"; lang := "de" |};
    {| code := "+353"; name := "Ireland"; lang := "en" |};
    {| code := "+48"; name := "Poland"; lang := "pl" |};
    {| code := "+46"; name := "Sweden"; lang := "sv" |};
    {| code := "+47"; name := "Norway"; lang := "no" |};
    {| code := "+45"; name := "Denmark"; lang := "da" |} ].

Inductive FormStatus : Type := idle | loading | success | error.

Record State : Type := {
  selectedCountry : Country;
  phoneNumber : string;
  status : FormStatus;
  errorMessage : string
}.

(** [COUNTRIES[0]] *)
Definition first_country : Country :=
  {| code := "+44"; name := "United Kingdom"; lang := "en" |}.

Definition initial : State :=
  {| selectedCountry := first_country; phoneNumber := ""; status := idle;
     errorMessage := "" |}.

Definition setSelectedCountry (v : Country) (st : State) : State :=
  {| selectedCountry := v; phoneNumber := phoneNumber st; status := status st;
     errorMessage := errorMessage st |}.

Definition setPhoneNumber (v : string) (st : State) : State :=
  {| selectedCountry := selectedCountry st; phoneNumber := v; status := status st;
     errorMessage := errorMessage st |}.

Definition setStatus (v : FormStatus) (st : State) : State :=
  {| selectedCountry := selectedCountry st; phoneNumber := phoneNumber st;
     status := v; errorMessage := errorMessage st |}.

Definition setErrorMessage (v : string) (st : State) : State :=
  {| selectedCountry := selectedCountry st; phoneNumber := phoneNumber st;
     status := status st; errorMessage := v |}.

(** The body posted to [/call/request]. *)
Record Request : Type := {
  phone_number : string;
  country_code : string;
  session_id : JSON;
  language : string
}.

(** What is caught: an [Error] with its message, or some other value. *)
Inductive Thrown : Type := ErrorWith (message : string) | NotAnError.

(** How the call request turns out: something is thrown before a response
    can be used ([fetch] rejects, the refusal's body cannot be read); the
    response is not [ok] and its body has this [detail] (a string, when
    there is one); or the response is [ok]. *)
Inductive CallOutcome : Type :=
| CallThrew (t : Thrown)
| CallRefused (detail : option string)
| CallAccepted.

(** What the form asks of its parent. *)
Inductive Effect : Type := onSuccess | onClose_after_3000ms.

Definition failed_to_request : string := "Failed to request callback".

(** [handleSubmit]; [sessionId] is the prop. *)
Definition handleSubmit (st : State) (sessionId : JSON) (o : CallOutcome)
  : State * list Request * list Effect :=
  let cleanNumber := delete_all isWhiteSpace (phoneNumber st) in
  if (String.length cleanNumber <? 6)%nat || (15 <? String.length cleanNumber)%nat then
    let st1 := setErrorMessage "Please enter a valid phone number" st in
    (setStatus error st1, [], [])
  else
    let st1 := setStatus loading st in
    let st2 := setErrorMessage "" st1 in
    let req :=
      {| phone_number := cleanNumber;
         country_code := code (selectedCountry st);
         session_id := sessionId;
         language := lang (selectedCountry st) |} in
    let caught (m : string) := setStatus error (setErrorMessage m st2) in
    match o with
    | CallAccepted =>
        (setStatus success st2, [req], [onSuccess; onClose_after_3000ms])
    | CallRefused detail =>
        let m := match detail with
                 | Some d => if String.eqb d "" then failed_to_request else d
                 | None => failed_to_request
                 end in
        (caught m, [req], [])
    | CallThrew (ErrorWith m) => (caught m, [req], [])
    | CallThrew NotAnError => (caught failed_to_request, [req], [])
    end.

(** The class [[^\d\s]] *)
Definition neither_digit_nor_space (c : ascii) : bool :=
  negb (isDigit c || isWhiteSpace c).

(** The phone input's [onChange]. *)
Definition onChange (st : State) (value : string) : State :=
  let value' := delete_all neither_digit_nor_space value in
  let st1 := setPhoneNumber value' st in
  match status st with
  | error => setStatus idle st1
  | _ => st1
  end.

(** The country selector's [onChange]. *)
Definition onSelect (st : State) (value : string) : State :=
  match find (fun c => String.eqb (code c) value) COUNTRIES with
  | Some country => setSelectedCountry country st
  | None => st
  end.

Inductive Event : Type :=
| Change (value : string)
| Select (value : string)
| Submit (sessionId : JSON) (o : CallOutcome).

Definition step (st : State) (e : Event) : State :=
  match e with
  | Change value => onChange st value
  | Select value => onSelect st value
  | Submit sessionId o => fst (fst (handleSubmit st sessionId o))
  end.

Definition run (st : State) (es : list Event) : State := fold_left step es st.

(** The phone number, with all white space removed, is 6 to 15 code units
    long. *)
Definition valid_number (st : State) : bool :=
  let n := String.length (delete_all isWhiteSpace (phoneNumber st)) in
  (6 <=? n)%nat && (n <=? 15)%nat.

(** The response to the call request was OK. *)
Definition accepted (o : CallOutcome) : bool :=
  match o with
  | CallAccepted => true
  | _ => false
  end.

(** The class [[^\d]]. *)
Definition not_digit (c : ascii) : bool := negb (isDigit c).

(** A request with a phone number of 6 to 15 digits and nothing else, and
    with the dial code and the language of one entry of [COUNTRIES]. *)
Definition well_formed (r : Request) : Prop :=
  Forall (fun c => isDigit c = true) (chars (phone_number r))
  /\ 6 <= String.length (phone_number r) <= 15
  /\ exists c, In c COUNTRIES /\ country_code r = code c /\ language r = lang c.

End CallbackForm.

(* ================================================================== *)
(** * frontend/components/VoiceInterface.tsx *)
(* ================================================================== *)

Module VoiceInterface.

Inductive Role : Type := user | assistant.

(** The [content] of the user message is the transcript, a string; that
    of the assistant message is whatever [chatData.response] is. *)
Record Message : Type := {
  id : string;
  role : Role;
  content : Value;
  timestamp : Z
}.

Record Clock : Type := { Date_now : Z; new_Date : Z }.

Definition Blob : Type := list Byte.byte.

(** [sessionId] starts as [null] and then holds whatever
    [chatData.session_id] was; [error] is [null], here [None], or one of the
    component's own messages. *)
Record State : Type := {
  messages : list Message;
  isRecording : bool;
  isProcessing : bool;
  isSpeaking : bool;
  sessionId : Value;
  error : option string
}.

Definition initial : State :=
  {| messages := []; isRecording := false; isProcessing := false;
     isSpeaking := false; sessionId := Some JNull; error := None |}.

Definition setMessages (f : list Message -> list Message) (st : State) : State :=
  {| messages := f (messages st); isRecording := isRecording st;
     isProcessing := isProcessing st; isSpeaking := isSpeaking st;
     sessionId := sessionId st; error := error st |}.

Definition setIsProcessing (v : bool) (st : State) : State :=
  {| messages := messages st; isRecording := isRecording st;
     isProcessing := v; isSpeaking := isSpeaking st;
     sessionId := sessionId st; error := error st |}.

Definition setIsSpeaking (v : bool) (st : State) : State :=
  {| messages := messages st; isRecording := isRecording st;
     isProcessing := isProcessing st; isSpeaking := v;
     sessionId := sessionId st; error := error st |}.

Definition setSessionId (v : Value) (st : State) : State :=
  {| messages := messages st; isRecording := isRecording st;
     isProcessing := isProcessing st; isSpeaking := isSpeaking st;
     sessionId := v; error := error st |}.

Definition setError (v : option string) (st : State) : State :=
  {| messages := messages st; isRecording := isRecording st;
     isProcessing := isProcessing st; isSpeaking := isSpeaking st;
     sessionId := sessionId st; error := v |}.

Inductive Request : Type :=
| Transcribe (audio : Blob)                              (* /voice/transcribe *)
| Chat (message : string) (session_id : Value)           (* /chat *)
| Synthesize (text : Value).                             (* /voice/synthesize *)

(** [/voice/transcribe]: the [fetch] rejects, or resolves with its [ok]
    flag and what [response.json()] gives ([None] when it rejects). *)
Inductive TranscribeOutcome : Type :=
| TranscribeRejected
| TranscribeResolved (is_ok : bool) (json : option JSON).

(** [/chat]: the [fetch] rejects, or resolves with its [ok] flag and what
    [response.json()] gives ([None] when it rejects), whatever its shape. *)
Inductive ChatOutcome : Type :=
| ChatRejected
| ChatResolved (is_ok : bool) (json : option JSON).

(** How [speakText] goes on after its request: something throws (the
    [fetch], the status test, [blob()], [play()]); there is no audio
    element; or playing has started. *)
Inductive Playback : Type := SpeechThrew | NoAudioElement | Started.

Definition speakText (st : State) (text : Value) (p : Playback)
  : State * list Request :=
  let st1 := setIsSpeaking true st in
  match p with
  | SpeechThrew => (setIsSpeaking false st1, [Synthesize text])
  | NoAudioElement => (st1, [Synthesize text])
  | Started => (st1, [Synthesize text])
  end.

Definition not_understood : string :=
  "Could not understand audio. Please try again.".

Definition error_occurred : string := "An error occurred. Please try again.".

(** The [catch] block, then [finally]. *)
Definition processAudio_catch (st : State) : State :=
  setIsProcessing false (setError (Some error_occurred) st).

(** [!sessionId] *)
Definition no_session (s : Value) : bool := negb (truthy s).

(** [processAudio(audioBlob)]: the clock at the user message and at the
    assistant message, and how the three requests turn out if they are
    made.  Reading a property of [null] raises a [TypeError], which the
    [catch] block takes. *)
Definition processAudio (st : State) (audioBlob : Blob)
           (tr : TranscribeOutcome) (clk : Clock)
           (ch : ChatOutcome) (clk' : Clock) (p : Playback)
  : State * list Request :=
  let st0 := setIsProcessing true st in
  let asked := [Transcribe audioBlob] in
  match tr with
  | TranscribeRejected => (processAudio_catch st0, asked)
  | TranscribeResolved false _ => (processAudio_catch st0, asked)
  | TranscribeResolved true None => (processAudio_catch st0, asked)
  | TranscribeResolved true (Some JNull) => (processAudio_catch st0, asked)
  | TranscribeResolved true (Some data) =>
      match property data "transcript" with
      | Some (JString transcript) =>
          if String.eqb (trim transcript) "" then
            let st1 := setError (Some not_understood) st0 in
            let st2 := setIsProcessing false st1 in
            (setIsProcessing false st2, asked)
          else
            let userMessage :=
              {| id := Number_toString (Date_now clk); role := user;
                 content := Some (JString transcript); timestamp := new_Date clk |} in
            let st1 := setMessages (fun prev => prev ++ [userMessage]) st0 in
            let asked1 := asked ++ [Chat transcript (sessionId st)] in
            match ch with
            | ChatRejected => (processAudio_catch st1, asked1)
            | ChatResolved false _ => (processAudio_catch st1, asked1)
            | ChatResolved true None => (processAudio_catch st1, asked1)
            | ChatResolved true (Some JNull) => (processAudio_catch st1, asked1)
            | ChatResolved true (Some chatData) =>
                let st2 :=
                  if no_session (sessionId st)
                  then setSessionId (property chatData "session_id") st1
                  else st1 in
                let assistantMessage :=
                  {| id := Number_toString (Date_now clk' + 1); role := assistant;
                     content := property chatData "response";
                     timestamp := new_Date clk' |} in
                let st3 := setMessages (fun prev => prev ++ [assistantMessage]) st2 in
                let (st4, asked2) := speakText st3 (property chatData "response") p in
                (setIsProcessing false st4, asked1 ++ asked2)
            end
      | _ => (processAudio_catch st0, asked)
      end
  end.

(** The transcript the transcription answers with, when there is one to
    go on with: the response is OK, its body is an object whose
    [transcript] is a string, and that string does not trim to nothing. *)
Definition heard (tr : TranscribeOutcome) : option string :=
  match tr with
  | TranscribeResolved true (Some data) =>
      match property data "transcript" with
      | Some (JString t) => if String.eqb (trim t) "" then None else Some t
      | _ => None
      end
  | _ => None
  end.

(** The answer of the chat, when there is one to go on with: the response
    is OK and its body can be read and is not [null]. *)
Definition answered (ch : ChatOutcome) : option JSON :=
  match ch with
  | ChatResolved true (Some JNull) => None
  | ChatResolved true (Some chatData) => Some chatData
  | _ => None
  end.

(** ** One utterance after the other *)

Record Round : Type := {
  round_audio : Blob;
  round_transcription : TranscribeOutcome;
  round_clock : Clock;
  round_chat : ChatOutcome;
  round_clock' : Clock;
  round_playback : Playback
}.

Definition take_round (st : State) (r : Round) : State * list Request :=
  processAudio st (round_audio r) (round_transcription r) (round_clock r)
               (round_chat r) (round_clock' r) (round_playback r).

Fixpoint rounds (st : State) (rs : list Round) : State * list Request :=
  match rs with
  | [] => (st, [])
  | r :: rest =>
      let (st1, asked1) := take_round st r in
      let (st2, asked2) := rounds st1 rest in
      (st2, asked1 ++ asked2)
  end.

(** The session a request names, for the requests that name one. *)
Definition names_session (s : Value) (r : Request) : Prop :=
  match r with
  | Chat _ session_id => session_id = s
  | _ => True
  end.

(** ** Recording

    [startRecording], [stopRecording] and the two handlers that
    [startRecording] installs on the recorder, over the component state and
    the two refs they use.  The blob that [onstop] builds is handed to
    [processAudio]; [handed] keeps the blobs handed over so far. *)

Definition setIsRecording (v : bool) (st : State) : State :=
  {| messages := messages st; isRecording := v;
     isProcessing := isProcessing st; isSpeaking := isSpeaking st;
     sessionId := sessionId st; error := error st |}.

Record Studio : Type := {
  view : State;
  mediaRecorderRef : bool;        (* [mediaRecorderRef.current] is set *)
  audioChunksRef : list Blob;
  handed : list Blob
}.

Definition studio (st : State) : Studio :=
  {| view := st; mediaRecorderRef := false; audioChunksRef := []; handed := [] |}.

Definition no_microphone : string :=
  "Could not access microphone. Please check permissions.".

(** How [startRecording] goes on after [setError(null)]: the microphone
    (or the recorder) is refused, or recording starts. *)
Inductive Microphone : Type := Refused | Granted.

Inductive Gesture : Type :=
| Pressed                        (* startRecording, up to its await *)
| MicrophoneSettled (o : Microphone)   (* the rest of startRecording *)
| DataAvailable (data : Blob)    (* mediaRecorder.ondataavailable *)
| Released                       (* stopRecording *)
| Stopped.                       (* mediaRecorder.onstop *)

(** [event.data.size > 0] *)
Definition has_data (b : Blob) : bool := negb (Nat.eqb (length b) 0).

Definition record (s : Studio) (g : Gesture) : Studio :=
  match g with
  | Pressed =>
      {| view := setError None (view s); mediaRecorderRef := mediaRecorderRef s;
         audioChunksRef := audioChunksRef s; handed := handed s |}
  | MicrophoneSettled Granted =>
      {| view := setIsRecording true (view s); mediaRecorderRef := true;
         audioChunksRef := []; handed := handed s |}
  | MicrophoneSettled Refused =>
      {| view := setError (Some no_microphone) (view s);
         mediaRecorderRef := mediaRecorderRef s;
         audioChunksRef := audioChunksRef s; handed := handed s |}
  | DataAvailable data =>
      if has_data data then
        {| view := view s; mediaRecorderRef := mediaRecorderRef s;
           audioChunksRef := audioChunksRef s ++ [data]; handed := handed s |}
      else s
  | Released =>
      if mediaRecorderRef s && isRecording (view s) then
        {| view := setIsRecording false (view s);
           mediaRecorderRef := mediaRecorderRef s;
           audioChunksRef := audioChunksRef s; handed := handed s |}
      else s
  | Stopped =>
      {| view := view s; mediaRecorderRef := mediaRecorderRef s;
         audioChunksRef := audioChunksRef s;
         handed := handed s ++ [concat (audioChunksRef s)] |}
  end.

Definition recording (s : Studio) (gs : list Gesture) : Studio :=
  fold_left record gs s.

End VoiceInterface.

(* ================================================================== *)
(** * The Run Gate and the Run Executor (spec sections 4.2 and 4.3) *)
(* ================================================================== *)

Module RunGate.

(** Modelled from the spec: the lease of the Run Gate (section 4.2); the
    back end that would hold the gate is not among the sources.  A lease
    names its session and carries the token it was issued under, so that a
    lease released long ago is told apart from the one issued since. *)
Record Lease : Type := { lease_session : string; lease_token : nat }.

Definition lease_eqb (a b : Lease) : bool :=
  String.eqb (lease_session a) (lease_session b)
  && Nat.eqb (lease_token a) (lease_token b).

(** Modelled from the spec: the Run Gate (section 4.2), missing from the
    sources, as the leases outstanding and the token of the next lease.
    There is no waiting list: the gate never queues a caller. *)
Record Gate : Type := { outstanding : list Lease; next_token : nat }.

Definition empty : Gate := {| outstanding := []; next_token := 0 |}.

Inductive Acquired : Type := Granted (l : Lease) | Busy.

Definition on_session (session_id : string) (l : Lease) : bool :=
  String.eqb (lease_session l) session_id.

(** A lease for the session is outstanding. *)
Definition held (g : Gate) (session_id : string) : bool :=
  existsb (on_session session_id) (outstanding g).

(** The leases outstanding for one session. *)
Definition leases_of (g : Gate) (session_id : string) : list Lease :=
  filter (on_session session_id) (outstanding g).

(** Modelled from the spec: [acquire(session_id) -> Lease | Busy] of the
    Run Gate (section 4.2), missing from the sources.  It answers at once:
    [Busy] and the gate as it was while a lease for the session is
    outstanding, a fresh lease otherwise. *)
Definition acquire (g : Gate) (session_id : string) : Gate * Acquired :=
  if held g session_id then (g, Busy)
  else
    let l := {| lease_session := session_id; lease_token := next_token g |} in
    ({| outstanding := l :: outstanding g; next_token := S (next_token g) |},
     Granted l).

(** Modelled from the spec: [release(lease)] of the Run Gate (section 4.2),
    missing from the sources: the lease is no longer outstanding. *)
Definition release (g : Gate) (l : Lease) : Gate :=
  {| outstanding := filter (fun l' => negb (lease_eqb l' l)) (outstanding g);
     next_token := next_token g |}.

(** The gate is only ever touched through its two operations; concurrent
    callers reach it in some order, one operation at a time. *)
Inductive Op : Type := Acquire (session_id : string) | Release (l : Lease).

Definition apply (g : Gate) (o : Op) : Gate :=
  match o with
  | Acquire session_id => fst (acquire g session_id)
  | Release l => release g l
  end.

Definition after (ops : list Op) : Gate := fold_left apply ops empty.

(** Turns arriving together, each trying the gate once, in the order they
    reach it; every answer is kept with the session that asked. *)
Fixpoint contend (g : Gate) (sessions : list string)
  : Gate * list (string * Acquired) :=
  match sessions with
  | [] => (g, [])
  | s :: rest =>
      let (g1, a) := acquire g s in
      let (g2, answers) := contend g1 rest in
      (g2, (s, a) :: answers)
  end.

Definition is_grant_for (session_id : string) (x : string * Acquired) : bool :=
  match x with
  | (s, Granted _) => String.eqb s session_id
  | (_, Busy) => false
  end.

Definition is_busy_for (session_id : string) (x : string * Acquired) : bool :=
  match x with
  | (s, Busy) => String.eqb s session_id
  | (_, Granted _) => false
  end.

Definition turns_on (session_id : string) (sessions : list string) : nat :=
  length (filter (String.eqb session_id) sessions).

End RunGate.

Module RunExecutor.

Import RunGate.

(** Modelled from the spec: the statuses of a run (section 4.3); the Run
    Executor is missing from the sources. *)
Inductive RunStatus : Type :=
| Queued | InProgress | RequiresAction | Completed | Failed | Cancelled.

(** Modelled from the spec: the error taxonomy of section 7, as far as a
    run can end with it. *)
Inductive ErrorKind : Type :=
| UpstreamTransient | UpstreamFatal | UnsupportedAction | TimedOut.

(** Modelled from the spec: what reaches a run while it is driven
    (sections 4.3, 4.4 and 6): the remote acknowledgement, an output delta,
    the remote end of the run, an action the remote run requires, the
    client's disconnect, a transient transport error, and the interval
    without a status change running out. *)
Inductive RemoteEvent : Type :=
| Acknowledged
| Delta (text : string)
| RunCompleted
| RunFailed
| ActionRequired (action : string)
| ClientDisconnected
| TransportError
| NoProgress.

(** Modelled from the spec: the Run of section 3, missing from the sources. *)
Record Run : Type := {
  run_session : string;
  submitted_turn : string;
  status : RunStatus;
  accumulated_output : string;
  attempts : nat;
  failure : option ErrorKind
}.

Definition new_run (session_id turn : string) : Run :=
  {| run_session := session_id; submitted_turn := turn; status := Queued;
     accumulated_output := ""; attempts := 0; failure := None |}.

Definition with_status (s : RunStatus) (r : Run) : Run :=
  {| run_session := run_session r; submitted_turn := submitted_turn r;
     status := s; accumulated_output := accumulated_output r;
     attempts := attempts r; failure := failure r |}.

Definition fail_with (k : ErrorKind) (r : Run) : Run :=
  {| run_session := run_session r; submitted_turn := submitted_turn r;
     status := Failed; accumulated_output := accumulated_output r;
     attempts := attempts r; failure := Some k |}.

Definition terminal (s : RunStatus) : bool :=
  match s with
  | Completed | Failed | Cancelled => true
  | Queued | InProgress | RequiresAction => false
  end.

(** An entry of a session's history; [annotated] marks an error turn. *)
Record HistoryTurn : Type := {
  by_assistant : bool;
  turn_content : string;
  annotated : bool
}.

(** How a turn submitted to the executor comes back. *)
Inductive Outcome : Type := SessionBusy | Ended (r : Run).

Record Executed : Type := {
  gate_after : Gate;
  history_after : list HistoryTurn;
  outcome : Outcome
}.

Section Executor.

(** The actions the executor resolves by itself, and the cap on the
    attempts spent on transient transport errors. *)
Variable resolvable : string -> bool.
Variable attempt_cap : nat.

(** Modelled from the spec: one move of the run state machine of section
    4.3, missing from the sources.  A terminal run stays as it is; a
    required action is resolved or fails the run at once, so that
    [RequiresAction] is never left standing. *)
Definition advance (r : Run) (ev : RemoteEvent) : Run :=
  if terminal (status r) then r
  else
    match ev with
    | Acknowledged =>
        match status r with
        | Queued => with_status InProgress r
        | _ => r
        end
    | Delta text =>
        match status r with
        | InProgress =>
            {| run_session := run_session r; submitted_turn := submitted_turn r;
               status := InProgress;
               accumulated_output := (accumulated_output r ++ text)%string;
               attempts := attempts r; failure := failure r |}
        | _ => r
        end
    | RunCompleted => with_status Completed r
    | RunFailed => fail_with UpstreamFatal r
    | ActionRequired action =>
        let waiting := with_status RequiresAction r in
        if resolvable action then with_status InProgress waiting
        else fail_with UnsupportedAction waiting
    | ClientDisconnected => with_status Cancelled r
    | TransportError =>
        if (S (attempts r) <? attempt_cap)%nat then
          {| run_session := run_session r; submitted_turn := submitted_turn r;
             status := status r; accumulated_output := accumulated_output r;
             attempts := S (attempts r); failure := failure r |}
        else fail_with UpstreamTransient r
    | NoProgress => fail_with TimedOut r
    end.

(** Modelled from the spec: the run driven to its end (section 4.3).  When
    nothing more arrives for a run that has not ended, the timeout policy
    forces it to [Failed]. *)
Definition drive (r : Run) (events : list RemoteEvent) : Run :=
  let r' := fold_left advance events r in
  if terminal (status r') then r' else fail_with TimedOut r'.

(** Modelled from the spec: what a run that ended leaves in the history
    (section 4.3): the final text of a completed run; the partial output of
    any other run, annotated, when there is some. *)
Definition finalize (r : Run) (history : list HistoryTurn) : list HistoryTurn :=
  match status r with
  | Completed =>
      history ++ [{| by_assistant := true; turn_content := accumulated_output r;
                     annotated := false |}]
  | _ =>
      if String.eqb (accumulated_output r) "" then history
      else history ++ [{| by_assistant := true;
                          turn_content := accumulated_output r;
                          annotated := true |}]
  end.

(** Modelled from the spec: one turn through the Run Executor (sections 2
    and 4.3), missing from the sources: acquire the gate or come back with
    [SessionBusy]; drive the run; finalize the history; release the lease,
    whatever the run ended with. *)
Definition execute (g : Gate) (session_id : string) (history : list HistoryTurn)
           (turn : string) (events : list RemoteEvent) : Executed :=
  match acquire g session_id with
  | (g1, Busy) =>
      {| gate_after := g1; history_after := history; outcome := SessionBusy |}
  | (g1, Granted lease) =>
      let r := drive (new_run session_id turn) events in
      {| gate_after := release g1 lease;
         history_after := finalize r history;
         outcome := Ended r |}
  end.

End Executor.

End RunExecutor.

(* ================================================================== *)
(** * Sample inputs *)
(* ================================================================== *)

Module Sample.

Definition quote : ascii := ascii_of_nat 34.
Definition backslash : ascii := ascii_of_nat 92.

(** A code unit that stands for itself inside a JSON string. *)
Definition plain (c : ascii) : bool :=
  (32 <=? nat_of_ascii c)%nat && negb (Ascii.eqb c quote)
  && negb (Ascii.eqb c backslash).

Fixpoint put (key : string) (v : JSON) (ms : list (string * JSON))
  : list (string * JSON) :=
  match ms with
  | [] => [(key, v)]
  | (k, w) :: rest =>
      if String.eqb k key then (k, v) :: rest else (k, w) :: put key v rest
  end.

Inductive Scanning : Type :=
| AtStart
| AtFirstKey
| AtKey (ms : list (string * JSON))
| InKey (ms : list (string * JSON)) (key : string)
| AtColon (ms : list (string * JSON)) (key : string)
| AtValue (ms : list (string * JSON)) (key : string)
| InValue (ms : list (string * JSON)) (key val : string)
| AfterValue (ms : list (string * JSON))
| AtEnd (ms : list (string * JSON)).

Definition snoc (s : string) (c : ascii) : string :=
  (s ++ String c EmptyString)%string.

Fixpoint scan (st : Scanning) (s : string) : option JSON :=
  match s with
  | EmptyString =>
      match st with
      | AtEnd ms => Some (JObject ms)
      | _ => None
      end
  | String c r =>
      match st with
      | AtStart => if Ascii.eqb c "{" then scan AtFirstKey r else None
      | AtFirstKey =>
          if Ascii.eqb c quote then scan (InKey [] "") r
          else if Ascii.eqb c "}" then scan (AtEnd []) r
          else None
      | AtKey ms => if Ascii.eqb c quote then scan (InKey ms "") r else None
      | InKey ms key =>
          if Ascii.eqb c quote then scan (AtColon ms key) r
          else if plain c then scan (InKey ms (snoc key c)) r
          else None
      | AtColon ms key => if Ascii.eqb c ":" then scan (AtValue ms key) r else None
      | AtValue ms key =>
          if Ascii.eqb c quote then scan (InValue ms key "") r else None
      | InValue ms key val =>
          if Ascii.eqb c quote then scan (AfterValue (put key (JString val) ms)) r
          else if plain c then scan (InValue ms key (snoc val c)) r
          else None
      | AfterValue ms =>
          if Ascii.eqb c "," then scan (AtKey ms) r
          else if Ascii.eqb c "}" then scan (AtEnd ms) r
          else None
      | AtEnd _ => None
      end
  end.

(** [JSON.parse] cut down to the texts the samples need: an object of
    string members, written without white space and without escapes.  On
    every text it accepts it answers as [JSON.parse] does; every other text
    it refuses. *)
Definition JSON_parse (s : string) : option JSON := scan AtStart s.

Definition q : string := String quote EmptyString.

(** ["key":"value"] *)
Definition member (key value : string) : string :=
  (q ++ key ++ q ++ ":" ++ q ++ value ++ q)%string.

(** An event line carrying a delta and the session it belongs to. *)
Definition delta_line (text session : string) : string :=
  ("data: {" ++ member "text" text ++ "," ++ member "session_id" session ++ "}")%string.

Definition newline : string := String LF EmptyString.

(** Two chunks: the first holds two framed events, the second one event
    and the sentinel. *)
Definition two_chunks : list string :=
  [ (delta_line "Hel" "s-1" ++ newline ++ newline
       ++ delta_line "lo" "s-1" ++ newline ++ newline)%string;
    (delta_line "!" "s-2" ++ newline ++ newline
       ++ "data: [DONE]" ++ newline ++ newline)%string ].

Definition noon : ChatInterface.Clock :=
  {| ChatInterface.Date_now := 1700000000000; ChatInterface.new_Date := 1700000000000 |}.

Definition later : ChatInterface.Clock :=
  {| ChatInterface.Date_now := 1700000002500; ChatInterface.new_Date := 1700000002500 |}.

(** One framed event that reaches the reader in two pieces. *)
Definition cut_in_two : list string :=
  [ ("data: {" ++ q ++ "te")%string;
    ("xt" ++ q ++ ":" ++ q ++ "Hello" ++ q ++ "}" ++ newline ++ newline)%string ].

(** The first turn as the running component sees it. *)
Definition first_turn_events : list ChatInterface.Event :=
  ChatInterface.Send "hi" noon
    :: ChatInterface.events_of_fetch 0 (streamed two_chunks EndOfStream) later.

Definition much_later : ChatInterface.Clock :=
  {| ChatInterface.Date_now := 1700000009000; ChatInterface.new_Date := 1700000009000 |}.

(** A second turn, as events, made after a render, whose stream names
    another session. *)
Definition second_turn_events : list ChatInterface.Event :=
  ChatInterface.Rendered
    :: ChatInterface.Send "and the Juke?" much_later
    :: ChatInterface.events_of_fetch 0
         (streamed [(delta_line "Sure." "s-2" ++ newline ++ newline)%string] EndOfStream)
         much_later.

(** The turn to which the stream of [two_chunks] answers. *)
Definition first_turn : ChatInterface.Turn :=
  {| ChatInterface.turn_text := "hi";
     ChatInterface.turn_start := noon;
     ChatInterface.turn_fetch := streamed two_chunks EndOfStream;
     ChatInterface.turn_end := later |}.

(** A turn that starts one millisecond after [first_turn] ended. *)
Definition hasty_turn : ChatInterface.Turn :=
  {| ChatInterface.turn_text := "more";
     ChatInterface.turn_start :=
       {| ChatInterface.Date_now := 1700000002501;
          ChatInterface.new_Date := 1700000002501 |};
     ChatInterface.turn_fetch := FetchRejected;
     ChatInterface.turn_end := much_later |}.

(** A voice interface that holds a session, and an utterance whose chat
    answer names another one. *)
Definition voice_in_session : VoiceInterface.State :=
  VoiceInterface.setSessionId (Some (JString "s-1")) VoiceInterface.initial.

Definition utterance : VoiceInterface.Round :=
  {| VoiceInterface.round_audio := [];
     VoiceInterface.round_transcription :=
       VoiceInterface.TranscribeResolved true
         (Some (JObject [("transcript", JString "What is the Ariya?")]));
     VoiceInterface.round_clock :=
       {| VoiceInterface.Date_now := 1700000000000;
          VoiceInterface.new_Date := 1700000000000 |};
     VoiceInterface.round_chat :=
       VoiceInterface.ChatResolved true
         (Some (JObject [("response", JString "An electric crossover.");
                         ("session_id", JString "s-2")]));
     VoiceInterface.round_clock' :=
       {| VoiceInterface.Date_now := 1700000001000;
          VoiceInterface.new_Date := 1700000001000 |};
     VoiceInterface.round_playback := VoiceInterface.Started |}.

(** The same event in one piece. *)
Definition in_one_piece : list string :=
  [ ("data: {" ++ q ++ "text" ++ q ++ ":" ++ q ++ "Hello" ++ q ++ "}"
       ++ newline ++ newline)%string ].

(** One framed event, with a delta and the session, that reaches the
    reader in two pieces. *)
Definition session_cut_in_two : list string :=
  [ ("data: {" ++ member "text" "Hi" ++ "," ++ q ++ "sess")%string;
    ("ion_id" ++ q ++ ":" ++ q ++ "s-1" ++ q ++ "}" ++ newline ++ newline)%string ].


(** A later turn whose stream names another session. *)
Definition second_turn : ChatInterface.Turn :=
  {| ChatInterface.turn_text := "and the Juke?";
     ChatInterface.turn_start := later;
     ChatInterface.turn_fetch :=
       streamed [(delta_line "Sure." "s-2" ++ newline ++ newline)%string] EndOfStream;
     ChatInterface.turn_end := later |}.

(** A transcription answer with a transcript of two spaces. *)
Definition blank_transcription : JSON := JObject [("transcript", JString "  ")].

(** A gate that granted session a, refused it, took its lease back, and
    then granted session b. *)
Definition gate_history : list RunGate.Op :=
  [ RunGate.Acquire "a"; RunGate.Acquire "a";
    RunGate.Release {| RunGate.lease_session := "a"; RunGate.lease_token := 0 |};
    RunGate.Acquire "b" ].

End Sample.

(* ================================================================== *)
(** * Facts about the primitives *)
(* ================================================================== *)

Lemma prefix_cut (p s : string) :
  String.prefix p s = true -> s = (p ++ slice (String.length p) s)%string.
Proof.
  revert s; induction p as [|c p IH]; intros s H.
  - reflexivity.
  - destruct s as [|d s]; simpl in H; [discriminate|].
    destruct (Ascii.ascii_dec c d) as [->|]; [|discriminate].
    simpl. f_equal. now apply IH.
Qed.

Lemma append_empty_r (s : string) : (s ++ "")%string = s.
Proof. induction s as [|c s IH]; simpl; congruence. Qed.

Lemma append_assoc (a b c : string) :
  ((a ++ b) ++ c)%string = (a ++ (b ++ c))%string.
Proof. induction a as [|x a IH]; simpl; congruence. Qed.

(* ================================================================== *)
(** * api.ts: the stream generator *)
(* ================================================================== *)

Section ApiFacts.

Variable JSON_parse : string -> option JSON.

Import Api.

(** The two tests the generator makes on a line single out exactly the
    sentinel line. *)
Lemma sentinel_test (line : string) :
  startsWith line "data: " && String.eqb (slice 6 line) "[DONE]"
  = is_sentinel line.
Proof.
  unfold is_sentinel, startsWith.
  destruct (String.prefix "data: " line) eqn:P.
  - apply prefix_cut in P. simpl String.length in P.
    rewrite P at 2. reflexivity.
  - simpl. symmetry. apply String.eqb_neq. intros ->. discriminate P.
Qed.

Lemma stream_lines_spec (lines : list string) :
  stream_lines JSON_parse lines
  = (payloads JSON_parse (before_sentinel lines),
     if existsb is_sentinel lines then Returned else Fallthrough).
Proof.
  induction lines as [|l rest IH]; [reflexivity|].
  cbn [stream_lines before_sentinel existsb].
  rewrite <- (sentinel_test l).
  destruct (startsWith l "data: ") eqn:P; cbn [andb orb].
  - destruct (String.eqb (slice 6 l) "[DONE]") eqn:D; [reflexivity|].
    cbn [payloads]. unfold parsed_payload. rewrite P.
    destruct (JSON_parse (slice 6 l)); rewrite IH; reflexivity.
  - cbn [payloads]. unfold parsed_payload. rewrite P. exact IH.
Qed.

Lemma before_sentinel_app (a b : list string) :
  before_sentinel (a ++ b)
  = if existsb is_sentinel a then before_sentinel a
    else a ++ before_sentinel b.
Proof.
  induction a as [|l a IH]; [reflexivity|].
  cbn [app before_sentinel existsb].
  destruct (is_sentinel l); cbn [orb]; [reflexivity|].
  rewrite IH. destruct (existsb is_sentinel a); reflexivity.
Qed.

Lemma before_sentinel_none (a : list string) :
  existsb is_sentinel a = false -> before_sentinel a = a.
Proof.
  induction a as [|l a IH]; [reflexivity|].
  cbn [existsb before_sentinel]. destruct (is_sentinel l); cbn [orb]; [discriminate|].
  intros H. now rewrite IH.
Qed.

Lemma payloads_app (a b : list string) :
  payloads JSON_parse (a ++ b) = payloads JSON_parse a ++ payloads JSON_parse b.
Proof.
  induction a as [|l a IH]; [reflexivity|].
  cbn [app payloads]. destruct (parsed_payload JSON_parse l); rewrite IH; reflexivity.
Qed.

Lemma stream_chunks_spec (cs : list string) :
  stream_chunks JSON_parse cs
  = (payloads JSON_parse (before_sentinel (event_lines cs)),
     if existsb is_sentinel (event_lines cs) then Returned else Fallthrough).
Proof.
  induction cs as [|c cs IH]; [reflexivity|].
  cbn [stream_chunks event_lines flat_map].
  rewrite stream_lines_spec, before_sentinel_app, existsb_app.
  fold (event_lines cs).
  destruct (existsb is_sentinel (split_newline c)) eqn:S; cbn [orb].
  - reflexivity.
  - rewrite IH, payloads_app, (before_sentinel_none _ S). reflexivity.
Qed.

(** C7.  Whatever chunks the reader delivers, the generator yields exactly
    the parsed payloads of the lines prefixed ["data: "] that come before
    the first sentinel line ["data: [DONE]"], in their order (a line whose
    payload [JSON.parse] refuses has none), and it finishes, yielding
    nothing more, when the sentinel is met or the stream ends. *)
Theorem streamChatMessage_yields_until_sentinel (cs : list string) (e : ReadEnd) :
  streamChatMessage JSON_parse (streamed cs e)
  = (payloads JSON_parse (before_sentinel (event_lines cs)),
     if existsb is_sentinel (event_lines cs) then Finished
     else match e with EndOfStream => Finished | ReadRejected => Threw end).
Proof.
  unfold streamChatMessage, streamed. cbn [ok body chunks ending negb].
  rewrite stream_chunks_spec.
  destruct (existsb is_sentinel (event_lines cs)); destruct e; reflexivity.
Qed.

End ApiFacts.

(* ================================================================== *)
(** * ChatInterface.tsx: reading the stream *)
(* ================================================================== *)

Section ChatFacts.

Variable JSON_parse : string -> option JSON.

Import ChatInterface.

Abbreviation on_line := (on_line JSON_parse).
Abbreviation on_chunk := (on_chunk JSON_parse).
Abbreviation read_loop := (read_loop JSON_parse).
Abbreviation event_of_line := (event_of_line JSON_parse).
Abbreviation events_of_lines := (events_of_lines JSON_parse).
Abbreviation parsed_events := (parsed_events JSON_parse).
Abbreviation stream_events := (stream_events JSON_parse).
Abbreviation sendMessage := (sendMessage JSON_parse).
Abbreviation conversation := (conversation JSON_parse).
Abbreviation step := (step JSON_parse).
Abbreviation run := (run JSON_parse).

Lemma same_frame_refl (st : State) : same_frame st st.
Proof. repeat split. Qed.

Lemma same_frame_trans (a b c : State) :
  same_frame a b -> same_frame b c -> same_frame a c.
Proof.
  unfold same_frame. intros (?&?&?&?&?) (?&?&?&?&?). repeat split; congruence.
Qed.

(** A line touches nothing but the buffer and the session, whatever it
    holds. *)
Lemma on_line_frame (st : State) (n : JSON) (line : string) :
  same_frame st (fst (on_line (st, n) line)).
Proof.
  unfold ChatInterface.on_line.
  destruct (startsWith line "data: "); [|apply same_frame_refl].
  destruct (String.eqb _ "[DONE]"); [apply same_frame_refl|].
  destruct (JSON_parse _) as [v|]; [|apply same_frame_refl].
  destruct v; try apply same_frame_refl;
    (destruct (property _ "text") as [t|];
     [destruct (truthy (Some t)); [destruct (ToString t)|]|]);
    try apply same_frame_refl;
    (destruct (property _ "session_id") as [sid|];
     [destruct (truthy (Some sid) && negb (truthy (Some n)))|]);
    repeat split.
Qed.

Lemma fold_on_line_frame (lines : list string) (st : State) (n : JSON) :
  same_frame st (fst (fold_left on_line lines (st, n))).
Proof.
  revert st n; induction lines as [|l lines IH]; intros st n.
  - apply same_frame_refl.
  - cbn [fold_left]. destruct (on_line (st, n) l) as [st1 n1] eqn:E.
    eapply same_frame_trans; [|apply IH].
    pose proof (on_line_frame st n l) as F. now rewrite E in F.
Qed.

Lemma on_chunk_frame (st : State) (n : JSON) (text : string) :
  same_frame st (fst (on_chunk (st, n) text)).
Proof. apply fold_on_line_frame. Qed.

Lemma read_loop_frame (cs : list string) (st : State) (n : JSON) :
  same_frame st (fst (read_loop (st, n) cs)).
Proof.
  revert st n; induction cs as [|c cs IH]; intros st n.
  - apply same_frame_refl.
  - unfold ChatInterface.read_loop. cbn [fold_left].
    destruct (on_chunk (st, n) c) as [st1 n1] eqn:E.
    eapply same_frame_trans; [|apply IH].
    pose proof (on_chunk_frame st n c) as F. now rewrite E in F.
Qed.

(** Once the local [newSessionId] is set, no line replaces it or the
    persisted session, whatever the line holds. *)
Lemma on_line_session_kept (st : State) (n : JSON) (line : string) :
  truthy (Some n) = true ->
  sessionId (fst (on_line (st, n) line)) = sessionId st
  /\ snd (on_line (st, n) line) = n.
Proof.
  intros T. unfold ChatInterface.on_line.
  destruct (startsWith line "data: "); [|now split].
  destruct (String.eqb _ "[DONE]"); [now split|].
  destruct (JSON_parse _) as [v|]; [|now split].
  destruct v; try (now split);
    (destruct (property _ "text") as [t|];
     [destruct (truthy (Some t)); [destruct (ToString t)|]|]);
    try (now split);
    (destruct (property _ "session_id") as [sid|]; [|now split]);
    rewrite T, andb_false_r; now split.
Qed.

Lemma read_loop_session_kept (cs : list string) (st : State) (n : JSON) :
  truthy (Some n) = true ->
  sessionId (fst (read_loop (st, n) cs)) = sessionId st
  /\ snd (read_loop (st, n) cs) = n.
Proof.
  intros T.
  assert (L : forall lines st, 
             sessionId (fst (fold_left on_line lines (st, n))) = sessionId st
             /\ snd (fold_left on_line lines (st, n)) = n).
  { induction lines as [|l lines IH]; intros st'; [now split|].
    cbn [fold_left]. destruct (on_line_session_kept st' n l T) as [A B].
    destruct (on_line (st', n) l) as [st1 n1]. cbn [fst snd] in A, B. subst n1.
    destruct (IH st1) as [C D]. split; congruence. }
  revert st; induction cs as [|c cs IH]; intros st; [now split|].
  unfold ChatInterface.read_loop. cbn [fold_left].
  destruct (L (split_newline c) st) as [A B].
  unfold ChatInterface.on_chunk at 2 4.
  destruct (fold_left on_line (split_newline c) (st, n)) as [st1 n1].
  cbn [fst snd] in A, B. subst n1.
  destruct (IH st1) as [C D]. unfold ChatInterface.read_loop in C, D.
  split; congruence.
Qed.

(** ** The buffer, for events of any shape *)

(** The text a line adds. *)
Lemma on_line_buffer (st : State) (n : JSON) (line : string) :
  streamingRef (fst (on_line (st, n) line))
  = (streamingRef st
     ++ match event_of_line line with
        | Some v => delta_text v
        | None => ""
        end)%string
  /\ (streamingContent st = streamingRef st ->
      streamingContent (fst (on_line (st, n) line))
      = streamingRef (fst (on_line (st, n) line))).
Proof.
  unfold ChatInterface.on_line, ChatInterface.event_of_line, delta_text.
  destruct (startsWith line "data: "); [|now rewrite append_empty_r].
  destruct (String.eqb _ "[DONE]"); [now rewrite append_empty_r|].
  destruct (JSON_parse _) as [v|]; [|now rewrite append_empty_r].
  destruct v; cbn [property]; try (now rewrite append_empty_r);
    (destruct (own _ "text") as [t|];
     [destruct (truthy (Some t)); [destruct (ToString t)|]|]);
    try (now rewrite append_empty_r);
    (destruct (own _ "session_id") as [sid|];
     [destruct (truthy (Some sid) && negb (truthy (Some n)))|]);
    cbn; rewrite ?append_empty_r; now split.
Qed.

Lemma events_of_lines_app (a b : list string) :
  events_of_lines (a ++ b) = events_of_lines a ++ events_of_lines b.
Proof.
  induction a as [|l a IH]; [reflexivity|].
  cbn [app ChatInterface.events_of_lines].
  destruct (event_of_line l); rewrite IH; reflexivity.
Qed.


Lemma parsed_events_app (a b : list string) :
  parsed_events (a ++ b) = parsed_events a ++ parsed_events b.
Proof.
  unfold ChatInterface.parsed_events. rewrite flat_map_app. apply events_of_lines_app.
Qed.


Lemma fold_on_line_buffer (lines : list string) (st : State) (n : JSON) :
  streamingRef (fst (fold_left on_line lines (st, n)))
  = (streamingRef st ++ concat_texts (map delta_text (events_of_lines lines)))%string
  /\ (streamingContent st = streamingRef st ->
      streamingContent (fst (fold_left on_line lines (st, n)))
      = streamingRef (fst (fold_left on_line lines (st, n)))).
Proof.
  revert st n; induction lines as [|l lines IH]; intros st n.
  - cbn. now rewrite append_empty_r.
  - cbn [fold_left ChatInterface.events_of_lines].
    destruct (on_line_buffer st n l) as [R C].
    destruct (on_line (st, n) l) as [st1 n1]. cbn [fst] in R, C.
    destruct (IH st1 n1) as [R1 C1]. split; [|tauto].
    rewrite R1, R, append_assoc.
    destruct (event_of_line l); reflexivity.
Qed.


(** ** Events framed as the endpoint frames them *)







(* ================================================================== *)
(** * ChatInterface.tsx: sendMessage *)
(* ================================================================== *)

(** What [sendMessage] leaves behind when it starts. *)
Lemma sendMessage_begin_started (st st1 : State) (messageText : string)
      (clk : Clock) (req : Request) :
  sendMessage_begin st messageText clk = Some (st1, req) ->
  isLoading st = false /\ trim messageText <> ""
  /\ req = {| message := trim messageText; session_id := sessionId st |}
  /\ (exists u, messages st1 = messages st ++ [u]
                /\ role u = user /\ content u = trim messageText)
  /\ isLoading st1 = true /\ sessionId st1 = sessionId st
  /\ streamingRef st1 = "" /\ streamingContent st1 = "".
Proof.
  unfold sendMessage_begin.
  destruct (String.eqb (trim messageText) "") eqn:B; [discriminate|].
  destruct (isLoading st) eqn:L; [discriminate|].
  cbn [orb]. intros [= <- <-].
  apply String.eqb_neq in B. repeat split; try assumption.
  eexists. cbn. repeat split.
Qed.

Lemma sendMessage_begin_passes (st : State) (messageText : string) (clk : Clock) :
  isLoading st = false -> trim messageText <> "" ->
  exists st1 req, sendMessage_begin st messageText clk = Some (st1, req).
Proof.
  intros L B. unfold sendMessage_begin.
  apply String.eqb_neq in B. rewrite B, L. cbn [orb]. eauto.
Qed.


(** What a call leaves behind when it starts from a render [seen]. *)
Lemma sendMessage_called_started (seen st st1 : State) (messageText : string)
      (clk : Clock) (req : Request) :
  sendMessage_called seen st messageText clk = Some (st1, req) ->
  isLoading seen = false /\ trim messageText <> ""
  /\ req = {| message := trim messageText; session_id := sessionId seen |}
  /\ (exists u, messages st1 = messages st ++ [u]
                /\ role u = user /\ content u = trim messageText)
  /\ isLoading st1 = true /\ sessionId st1 = sessionId st
  /\ streamingRef st1 = "" /\ streamingContent st1 = "".
Proof.
  unfold sendMessage_called.
  destruct (String.eqb (trim messageText) "") eqn:B; [discriminate|].
  destruct (isLoading seen) eqn:L; [discriminate|].
  cbn [orb]. intros [= <- <-].
  apply String.eqb_neq in B. repeat split; try assumption.
  eexists. cbn. repeat split.
Qed.

(** A call from the latest render starts as [sendMessage] does. *)
Lemma sendMessage_called_latest (st : State) (messageText : string) (clk : Clock) :
  sendMessage_called st st messageText clk = sendMessage_begin st messageText clk.
Proof. reflexivity. Qed.

Lemma sendMessage_done_spec (st : State) (clk : Clock) :
  exists a, messages (sendMessage_done st clk) = messages st ++ [a]
            /\ role a = assistant /\ content a = streamingRef st.
Proof. eexists. cbn. repeat split. Qed.

Lemma sendMessage_catch_spec (st : State) (clk : Clock) :
  exists a, messages (sendMessage_catch st clk) = messages st ++ [a]
            /\ role a = assistant /\ content a = fallback.
Proof. eexists. cbn. repeat split. Qed.



(** ** The session across turns *)




(** C5.  When a request that was sent errors (rejected [fetch], status not
    OK, no body, or a failed read of the stream), the transcript gains the
    user message and then exactly one assistant message, the fallback; the
    streaming buffer and the streaming text are empty; and the loading flag
    is down. *)
Theorem sendMessage_error_appends_fallback
        (st : State) (messageText : string) (clk clk' : Clock) (f : FetchOutcome) :
  isLoading st = false ->
  trim messageText <> "" ->
  request_errors f = true ->
  let st' := fst (sendMessage st messageText clk f clk') in
  (exists u a,
      messages st' = messages st ++ [u; a]
      /\ role u = user /\ content u = trim messageText
      /\ role a = assistant /\ content a = fallback)
  /\ streamingRef st' = ""
  /\ streamingContent st' = ""
  /\ isLoading st' = false.
Proof.
  intros L B R st'.
  destruct (sendMessage_begin_passes st messageText clk L B) as (st1 & req & E).
  pose proof (sendMessage_begin_started _ _ _ _ _ E)
    as (_ & _ & _ & (u & Mu & Ru & Cu) & _ & _ & _ & _).
  assert (H : exists st2, st' = sendMessage_catch st2 clk' /\ messages st2 = messages st1).
  { subst st'. unfold ChatInterface.sendMessage. rewrite E.
    destruct f as [|r]; [now exists st1|].
    cbn [request_errors] in R.
    destruct (negb (ok r)); [now exists st1|].
    destruct (body r) as [b|]; [|now exists st1].
    destruct (read_loop_frame (chunks b) st1 (sessionId st)) as (Mf & _).
    destruct (read_loop (st1, sessionId st) (chunks b)) as [st2 n2]. cbn [fst] in Mf.
    cbn [orb] in R. destruct (ending b); [discriminate|].
    now exists st2. }
  destruct H as (st2 & -> & M2).
  destruct (sendMessage_catch_spec st2 clk') as (a & Ma & Ra & Ca).
  split; [|now cbn].
  exists u, a. rewrite Ma, M2, Mu, <- app_assoc. now repeat split.
Qed.

(** ** The transcript only grows *)

Ltac nothing_added := exists []; now rewrite app_nil_r.

Lemma step_appends (m : Machine) (e : Event) :
  exists added, messages (ui (step m e)) = messages (ui m) ++ added.
Proof.
  destruct e as [messageText clk| |value|shown|lit|i h clk|i r clk];
    cbn [ChatInterface.step].
  - destruct (sendMessage_called (rendered m) (ui m) messageText clk)
      as [[st1 req]|] eqn:E.
    + pose proof (sendMessage_called_started _ _ _ _ _ _ E)
        as (_ & _ & _ & (u & Mu & _) & _).
      exists [u]. exact Mu.
    + nothing_added.
  - nothing_added.
  - nothing_added.
  - nothing_added.
  - nothing_added.
  - destruct (nth_error (running m) i) as [[seen|n]|];
      try nothing_added.
    destruct h as [|[|] [|]]; cbn [ui];
      try nothing_added;
      destruct (sendMessage_catch_spec (ui m) clk) as (a & Ma & _);
      exists [a]; exact Ma.
  - destruct (nth_error (running m) i) as [[seen|n]|];
      try nothing_added.
    destruct r as [text| |].
    + destruct (on_chunk_frame (ui m) n text) as (Mf & _).
      destruct (on_chunk (ui m, n) text) as [st1 n1]. cbn [fst ui] in *.
      nothing_added.
    + destruct (sendMessage_done_spec (ui m) clk) as (a & Ma & _).
      exists [a]; exact Ma.
    + destruct (sendMessage_catch_spec (ui m) clk) as (a & Ma & _).
      exists [a]; exact Ma.
Qed.

Lemma run_appends (es : list Event) (m : Machine) :
  exists added, messages (ui (run m es)) = messages (ui m) ++ added.
Proof.
  revert m; induction es as [|e es IH]; intros m.
  - exists []. cbn. now rewrite app_nil_r.
  - unfold ChatInterface.run. cbn [fold_left].
    destruct (IH (step m e)) as (x & Hx).
    destruct (step_appends m e) as (y & Hy).
    exists (y ++ x). unfold ChatInterface.run in Hx.
    now rewrite Hx, Hy, app_assoc.
Qed.

(** C6.  Whatever happens to the component, in whatever order, the
    transcript it had is still there, unchanged and in place, at the front
    of the transcript it has afterwards; and a call of [sendMessage] adds
    nothing when the guard stops it and otherwise, whether the turn
    completes or fails, exactly the user message followed by one assistant
    message. *)
Theorem transcript_is_append_only
        (m : Machine) (es : list Event)
        (st : State) (messageText : string) (clk clk' : Clock) (f : FetchOutcome) :
  (exists added, messages (ui (run m es)) = messages (ui m) ++ added)
  /\ (exists u a,
         role u = user /\ content u = trim messageText /\ role a = assistant
         /\ messages (fst (sendMessage st messageText clk f clk'))
            = messages st
                ++ (if String.eqb (trim messageText) "" || isLoading st
                    then [] else [u; a])).
Proof.
  split; [apply run_appends|].
  unfold ChatInterface.sendMessage.
  destruct (sendMessage_begin st messageText clk) as [[st1 req]|] eqn:E.
  - pose proof (sendMessage_begin_started _ _ _ _ _ E)
      as (L & B & _ & (u & Mu & Ru & Cu) & _).
    apply String.eqb_neq in B. rewrite B, L. cbn [orb].
    assert (H : exists st2 a, role a = assistant
                 /\ messages (fst (match f with
                       | FetchRejected => (sendMessage_catch st1 clk', [req])
                       | FetchResolved r =>
                           if negb (ok r) then (sendMessage_catch st1 clk', [req])
                           else match body r with
                                | None => (sendMessage_catch st1 clk', [req])
                                | Some b =>
                                    let (st2, _) := read_loop (st1, sessionId st) (chunks b) in
                                    match ending b with
                                    | EndOfStream => (sendMessage_done st2 clk', [req])
                                    | ReadRejected => (sendMessage_catch st2 clk', [req])
                                    end
                                end
                       end)) = messages st2 ++ [a]
                 /\ messages st2 = messages st1).
    { destruct (sendMessage_catch_spec st1 clk') as (a & Ma & Ra & _).
      destruct f as [|r]; [now exists st1, a|].
      destruct (negb (ok r)); [now exists st1, a|].
      destruct (body r) as [b|]; [|now exists st1, a].
      destruct (read_loop_frame (chunks b) st1 (sessionId st)) as (Mf & _).
      destruct (read_loop (st1, sessionId st) (chunks b)) as [st2 n2]. cbn [fst] in Mf.
      destruct (ending b).
      - destruct (sendMessage_done_spec st2 clk') as (a' & Ma' & Ra' & _).
        now exists st2, a'.
      - destruct (sendMessage_catch_spec st2 clk') as (a' & Ma' & Ra' & _).
        now exists st2, a'. }
    destruct H as (st2 & a & Ra & Ma & M2).
    exists u, a. rewrite Ma, M2, Mu, <- app_assoc. now repeat split.
  - exists {| id := ""; role := user; content := trim messageText; timestamp := 0 |},
           {| id := ""; role := assistant; content := ""; timestamp := 0 |}.
    repeat split.
    unfold sendMessage_begin in E.
    destruct (String.eqb (trim messageText) "" || isLoading st); [|discriminate].
    cbn. now rewrite app_nil_r.
Qed.

(** ** One request at a time *)

Lemma put_at_length {A : Type} (i : nat) (a : A) (l : list A) :
  length (put_at i a l) = length l.
Proof.
  revert i; induction l as [|x l IH]; intros [|i]; cbn; try reflexivity.
  now rewrite IH.
Qed.

Lemma drop_at_short {A : Type} (i : nat) (l : list A) (a : A) :
  nth_error l i = Some a -> length l <= 1 -> drop_at i l = [].
Proof.
  destruct l as [|x [|y l]]; cbn; intros H L.
  - destruct i; discriminate.
  - destruct i as [|i]; [reflexivity|]. destruct i; discriminate.
  - lia.
Qed.

(** ** Reads that end where a line ends *)










End ChatFacts.

(** C3.  The reader parses the lines of each read by itself, so a delta
    event that reaches it in two reads is parsed in neither.  The stream of
    one event whose [text] is [Hello], delivered in one read, gives the
    assistant message [Hello]; the same stream delivered in two reads, cut
    inside the key [text], has the same single delta event, and gives an
    empty assistant message. *)
Theorem sendMessage_drops_delta_cut_by_a_read :
  ChatInterface.concat_texts Sample.cut_in_two
  = ChatInterface.concat_texts Sample.in_one_piece
  /\ ChatInterface.stream_events Sample.JSON_parse Sample.cut_in_two
     = [JObject [("text", JString "Hello")]]
  /\ map ChatInterface.content
       (ChatInterface.messages
          (fst (ChatInterface.sendMessage Sample.JSON_parse
                  ChatInterface.initial "hi" Sample.noon
                  (streamed Sample.in_one_piece EndOfStream) Sample.later)))
     = ["hi"; "Hello"]
  /\ map ChatInterface.content
       (ChatInterface.messages
          (fst (ChatInterface.sendMessage Sample.JSON_parse
                  ChatInterface.initial "hi" Sample.noon
                  (streamed Sample.cut_in_two EndOfStream) Sample.later)))
     = ["hi"; ""].
Proof. repeat split; reflexivity. Qed.

(** C4.  For the same reason a session that arrives in an event cut by a
    read is not persisted.  On a first turn whose stream is one event with
    the [text] [Hi] and the [session_id] [s-1], delivered in two reads cut
    inside the key [session_id], the first [session_id] carried by the
    stream is [s-1], yet the component
    holds no session after the turn, the next request goes out with
    [null], and the session the component then takes is that of the second
    stream. *)
Theorem sendMessage_misses_session_cut_by_a_read :
  let first :=
    ChatInterface.sendMessage Sample.JSON_parse ChatInterface.initial "hi"
      Sample.noon (streamed Sample.session_cut_in_two EndOfStream) Sample.later in
  let rest :=
    ChatInterface.conversation Sample.JSON_parse (fst first) [Sample.second_turn] in
  ChatInterface.first_session
    (ChatInterface.stream_events Sample.JSON_parse Sample.session_cut_in_two)
  = Some "s-1"
  /\ map ChatInterface.session_id (snd first) = [JNull]
  /\ ChatInterface.sessionId (fst first) = JNull
  /\ map ChatInterface.session_id (snd rest) = [JNull]
  /\ ChatInterface.sessionId (fst rest) = JString "s-2".
Proof. repeat split; reflexivity. Qed.

(** In [sendMessage] the sentinel is skipped, not obeyed: events that
    follow it are still read. *)
Example events_after_sentinel_are_read :
  ChatInterface.parsed_events Sample.JSON_parse
    [("data: [DONE]" ++ Sample.newline ++ Sample.delta_line "late" "s-1")%string]
  = [JObject [("text", JString "late"); ("session_id", JString "s-1")]].
Proof. reflexivity. Qed.

(** White space only, or nothing at all: exactly the strings that [trim]
    empties. *)
Lemma trim_blank (s : string) :
  trim s = "" <-> Forall (fun c => isWhiteSpace c = true) (chars s).
Proof.
  unfold trim. induction s as [|c s IH]; cbn [trimStart chars].
  - split; [constructor|reflexivity].
  - destruct (isWhiteSpace c) eqn:W.
    + rewrite IH. split; [now constructor|now inversion 1].
    + split.
      * cbn [trimEnd]. destruct (trimEnd s); rewrite ?W; discriminate.
      * inversion 1; congruence.
Qed.

Section ChatMachineFacts.

Variable JSON_parse : string -> option JSON.

Import ChatInterface.

Lemma run_chunks (cs : list string) (st seen : State) (n : JSON)
      (out : list Request) (clk : Clock) :
  run JSON_parse
      {| ui := st; rendered := seen; running := [Reading n]; sent := out |}
      (map (fun c => ReadSettled 0 (Chunk c) clk) cs)
  = {| ui := fst (read_loop JSON_parse (st, n) cs);
       rendered := seen;
       running := [Reading (snd (read_loop JSON_parse (st, n) cs))];
       sent := out |}.
Proof.
  revert st n; induction cs as [|c cs IH]; intros st n; [reflexivity|].
  unfold run, read_loop in *. cbn [map fold_left].
  cbn [step running nth_error ui sent rendered].
  destruct (on_chunk JSON_parse (st, n) c) as [st1 n1]. cbn [put_at].
  apply IH.
Qed.

(** An undisturbed turn of the running component, called from the latest
    render, is [sendMessage]. *)
Lemma run_turn (m : Machine) (messageText : string) (clk clk' : Clock)
      (f : FetchOutcome) (st1 : State) (req : Request) :
  running m = [] ->
  rendered m = ui m ->
  sendMessage_begin (ui m) messageText clk = Some (st1, req) ->
  run JSON_parse m (Send messageText clk :: events_of_fetch 0 f clk')
  = {| ui := fst (sendMessage JSON_parse (ui m) messageText clk f clk');
       rendered := rendered m;
       running := [];
       sent := sent m ++ snd (sendMessage JSON_parse (ui m) messageText clk f clk') |}.
Proof.
  intros R V E. unfold run, sendMessage. cbn [fold_left step].
  rewrite V, sendMessage_called_latest, E, R.
  cbn [app].
  destruct f as [|r]; [reflexivity|]. cbn [events_of_fetch].
  destruct (body r) as [b|].
  - destruct (ok r); cbn [negb]; [|reflexivity].
    cbn [fold_left step running nth_error put_at ui sent rendered].
    rewrite fold_left_app.
    pose proof (run_chunks (chunks b) st1 (ui m) (sessionId (ui m))
                  (sent m ++ [req]) clk') as C.
    unfold run in C. rewrite C.
    destruct (read_loop JSON_parse (st1, sessionId (ui m)) (chunks b)) as [st2 n2].
    destruct (ending b); reflexivity.
  - destruct (ok r); reflexivity.
Qed.

End ChatMachineFacts.

(* ================================================================== *)
(** * CallbackForm.tsx *)
(* ================================================================== *)

Section CallbackFacts.

Import CallbackForm.

Lemma delete_all_filtered (C : ascii -> bool) (s : string) :
  Forall (fun c => C c = false) (chars (delete_all C s)).
Proof.
  induction s as [|c s IH]; cbn; [constructor|].
  destruct (C c) eqn:E; [assumption|]. now constructor.
Qed.

Lemma handleSubmit_keeps_number (st : State) (sessionId : JSON) (o : CallOutcome) :
  phoneNumber (fst (fst (handleSubmit st sessionId o))) = phoneNumber st.
Proof.
  unfold handleSubmit.
  destruct ((_ <? 6)%nat || (15 <? _)%nat); [reflexivity|].
  destruct o as [[m|]|[d|]|]; try reflexivity.
Qed.

Lemma step_number_clean (st : State) (e : Event) :
  Forall (fun c => isDigit c || isWhiteSpace c = true) (chars (phoneNumber st)) ->
  Forall (fun c => isDigit c || isWhiteSpace c = true) (chars (phoneNumber (step st e))).
Proof.
  intros H. destruct e as [value|value|sessionId o]; cbn [step].
  - unfold onChange.
    assert (K : Forall (fun c => isDigit c || isWhiteSpace c = true)
                       (chars (delete_all neither_digit_nor_space value))).
    { eapply Forall_impl; [|apply delete_all_filtered].
      unfold neither_digit_nor_space. intros c. apply negb_false_iff. }
    destruct (status st); exact K.
  - unfold onSelect. destruct (find _ COUNTRIES); exact H.
  - now rewrite handleSubmit_keeps_number.
Qed.

Lemma run_number_clean (es : list Event) (st : State) :
  Forall (fun c => isDigit c || isWhiteSpace c = true) (chars (phoneNumber st)) ->
  Forall (fun c => isDigit c || isWhiteSpace c = true)
         (chars (phoneNumber (run st es))).
Proof.
  revert st; induction es as [|e es IH]; intros st H; [exact H|].
  unfold run. cbn [fold_left]. apply IH. now apply step_number_clean.
Qed.

(** C9.  [handleSubmit] sends a call request exactly when the phone number
    with all white space removed is 6 to 15 code units long, and the
    request carries that cleaned number; otherwise it sends nothing and
    sets the error status and its message.  And whatever is typed, selected
    or submitted, starting from the empty form, every code unit of the
    phone number field is a digit or a space character, that is, of the
    class [\d] or [\s]. *)
Theorem callback_form_validates_phone_number
        (st : State) (sessionId : JSON) (o : CallOutcome) (es : list Event) :
  let cleanNumber := delete_all isWhiteSpace (phoneNumber st) in
  let after := fst (fst (handleSubmit st sessionId o)) in
  let requests := snd (fst (handleSubmit st sessionId o)) in
  ((exists req, requests = [req] /\ phone_number req = cleanNumber
                /\ 6 <= String.length cleanNumber <= 15)
   \/ (requests = [] /\ status after = error
       /\ errorMessage after = "Please enter a valid phone number"
       /\ ~ 6 <= String.length cleanNumber <= 15))
  /\ Forall (fun c => isDigit c || isWhiteSpace c = true)
            (chars (phoneNumber (run initial es))).
Proof.
  intros cleanNumber after requests. split.
  - subst after requests. unfold handleSubmit. fold cleanNumber.
    destruct (String.length cleanNumber <? 6)%nat eqn:A;
      [|destruct (15 <? String.length cleanNumber)%nat eqn:B]; cbn [orb].
    + right. apply Nat.ltb_lt in A. repeat split; lia.
    + right. apply Nat.ltb_lt in B. repeat split; lia.
    + left. apply Nat.ltb_ge in A, B.
      destruct o as [[m|]|[d|]|]; eexists; cbn; repeat split; lia.
  - apply run_number_clean. constructor.
Qed.

End CallbackFacts.

(* ================================================================== *)
(** * VoiceInterface.tsx *)
(* ================================================================== *)

Section VoiceFacts.

Import VoiceInterface.

(** C10.  When the transcription answers with a transcript that trims to
    nothing (empty or all white space), [processAudio] has asked for the
    transcription and for nothing else (no chat request), leaves the
    transcript of the conversation as it was, sets the error shown to the
    user, and ends with the processing flag down. *)
Theorem processAudio_blank_transcript
        (st : State) (audioBlob : Blob) (data : JSON) (transcript : string)
        (clk clk' : Clock) (ch : ChatOutcome) (p : Playback) :
  property data "transcript" = Some (JString transcript) ->
  trim transcript = "" ->
  let result := processAudio st audioBlob (TranscribeResolved true (Some data))
                             clk ch clk' p in
  snd result = [Transcribe audioBlob]
  /\ messages (fst result) = messages st
  /\ error (fst result) = Some not_understood
  /\ isProcessing (fst result) = false.
Proof.
  intros P T result. subst result. unfold processAudio.
  destruct data as [| | | | |members]; try discriminate P.
  rewrite P, T. cbn. repeat split.
Qed.

End VoiceFacts.

(* ================================================================== *)
(** * The Run Gate *)
(* ================================================================== *)

Section GateFacts.

Import RunGate.

Lemma not_held_no_lease (g : Gate) (s : string) :
  held g s = false -> leases_of g s = [].
Proof.
  unfold held, leases_of. induction (outstanding g) as [|l ls IH]; [reflexivity|].
  cbn. destruct (on_session s l); [discriminate|]. exact IH.
Qed.

Lemma filter_filter_length {A : Type} (P Q : A -> bool) (l : list A) :
  length (filter P (filter Q l)) <= length (filter P l).
Proof.
  induction l as [|x l IH]; [reflexivity|].
  cbn [filter]. destruct (Q x); cbn [filter]; destruct (P x); cbn [length]; lia.
Qed.

Lemma apply_single_lease (g : Gate) (o : Op) :
  (forall s, length (leases_of g s) <= 1) ->
  forall s, length (leases_of (apply g o) s) <= 1.
Proof.
  intros I s. destruct o as [sid|l]; cbn [apply].
  - unfold acquire. destruct (held g sid) eqn:H; cbn [fst]; [apply I|].
    unfold leases_of. cbn [outstanding filter]. unfold on_session at 1.
    cbn [lease_session].
    destruct (String.eqb sid s) eqn:E.
    + apply String.eqb_eq in E. subst s.
      fold (leases_of g sid). rewrite (not_held_no_lease g sid H). cbn. lia.
    + apply I.
  - unfold release, leases_of. cbn [outstanding].
    etransitivity; [apply filter_filter_length|apply I].
Qed.

Lemma after_single_lease (ops : list Op) (g : Gate) :
  (forall s, length (leases_of g s) <= 1) ->
  forall s, length (leases_of (fold_left apply ops g) s) <= 1.
Proof.
  revert g; induction ops as [|o ops IH]; intros g I; [exact I|].
  cbn [fold_left]. apply IH. now apply apply_single_lease.
Qed.

Lemma acquire_held (g : Gate) (s sid : string) :
  held (fst (acquire g s)) sid = held g sid || String.eqb s sid.
Proof.
  unfold acquire. destruct (held g s) eqn:H; cbn [fst].
  - destruct (String.eqb s sid) eqn:E; [|now rewrite orb_false_r].
    apply String.eqb_eq in E. subst. now rewrite H.
  - unfold held. cbn [outstanding existsb]. unfold on_session at 1.
    cbn [lease_session]. apply orb_comm.
Qed.

Lemma contend_when_held (sessions : list string) (g : Gate) (sid : string) :
  held g sid = true ->
  filter (is_grant_for sid) (snd (contend g sessions)) = []
  /\ length (filter (is_busy_for sid) (snd (contend g sessions)))
     = turns_on sid sessions.
Proof.
  revert g; induction sessions as [|s rest IH]; intros g H; [now split|].
  cbn [contend].
  pose proof (acquire_held g s sid) as K. rewrite H in K. cbn [orb] in K.
  destruct (IH _ K) as [A B].
  unfold turns_on in *. cbn [filter].
  destruct (acquire g s) as [g1 a] eqn:E. cbn [fst] in *.
  destruct (contend g1 rest) as [g2 answers]. cbn [snd filter] in *.
  rewrite (String.eqb_sym sid s).
  destruct (String.eqb s sid) eqn:S.
  - apply String.eqb_eq in S. subst s.
    unfold acquire in E. rewrite H in E. injection E as <- <-.
    cbn [is_grant_for is_busy_for]. rewrite String.eqb_refl. cbn [length].
    split; [exact A|now rewrite B].
  - destruct a; cbn [is_grant_for is_busy_for]; rewrite ?S; now split.
Qed.

Lemma contend_when_free (sessions : list string) (g : Gate) (sid : string) :
  held g sid = false ->
  In sid sessions ->
  length (filter (is_grant_for sid) (snd (contend g sessions))) = 1
  /\ length (filter (is_busy_for sid) (snd (contend g sessions)))
     = turns_on sid sessions - 1.
Proof.
  revert g; induction sessions as [|s rest IH]; intros g H M; [destruct M|].
  cbn [contend].
  pose proof (acquire_held g s sid) as K. rewrite H in K. cbn [orb] in K.
  unfold turns_on in *. cbn [filter].
  rewrite (String.eqb_sym sid s).
  destruct (String.eqb s sid) eqn:S.
  - apply String.eqb_eq in S. subst s.
    destruct (contend_when_held rest _ sid K) as [A B].
    unfold acquire in *. rewrite H in *. cbn [fst] in *.
    destruct (contend _ rest) as [g2 answers]. cbn [snd filter] in *.
    cbn [is_grant_for is_busy_for]. rewrite String.eqb_refl.
    cbn [length]. rewrite A. unfold turns_on in B. rewrite B. split; [reflexivity|lia].
  - destruct M as [->|M]; [rewrite String.eqb_refl in S; discriminate|].
    destruct (IH _ K M) as [A B].
    destruct (acquire g s) as [g1 a]. cbn [fst] in *.
    destruct (contend g1 rest) as [g2 answers]. cbn [snd filter] in *.
    destruct a; cbn [is_grant_for is_busy_for]; rewrite ?S; now split.
Qed.

(** C1.  However acquires and releases have reached the gate, at most one
    lease is outstanding for a session.  While one is outstanding, an
    acquire for that session answers [Busy] and leaves the gate as it was:
    nothing is queued.  And of the turns that reach a gate on which the
    session is free, in whatever order and among turns of other sessions,
    exactly one on that session is granted the lease and all its others
    are answered [Busy]. *)
Theorem run_gate_grants_one_lease_per_session
        (ops : list Op) (session_id : string) (sessions : list string) :
  let g := after ops in
  length (leases_of g session_id) <= 1
  /\ (held g session_id = true -> acquire g session_id = (g, Busy))
  /\ (held g session_id = false ->
      In session_id sessions ->
      length (filter (is_grant_for session_id) (snd (contend g sessions))) = 1
      /\ length (filter (is_busy_for session_id) (snd (contend g sessions)))
         = turns_on session_id sessions - 1).
Proof.
  intros g. split; [|split].
  - apply after_single_lease. intros s. cbn. lia.
  - intros H. unfold acquire. now rewrite H.
  - apply contend_when_free.
Qed.

End GateFacts.

(* ================================================================== *)
(** * The Run Executor *)
(* ================================================================== *)

Section ExecutorFacts.

Import RunGate RunExecutor.

Variable resolvable : string -> bool.
Variable attempt_cap : nat.

Lemma lease_eqb_refl (l : Lease) : lease_eqb l l = true.
Proof. unfold lease_eqb. now rewrite String.eqb_refl, Nat.eqb_refl. Qed.

Lemma release_idempotent (g : Gate) (l : Lease) :
  release (release g l) l = release g l.
Proof.
  unfold release. cbn [outstanding next_token]. f_equal.
  induction (outstanding g) as [|x xs IH]; [reflexivity|].
  cbn [filter]. destruct (negb (lease_eqb x l)) eqn:E; [|exact IH].
  cbn [filter]. rewrite E. now f_equal.
Qed.

Lemma release_fresh (g : Gate) (sid : string) :
  held g sid = false ->
  outstanding (release (fst (acquire g sid))
                       {| lease_session := sid; lease_token := next_token g |})
  = outstanding g.
Proof.
  intros H. unfold acquire. rewrite H. cbn [fst release outstanding filter].
  rewrite lease_eqb_refl. cbn [negb].
  unfold held in H. induction (outstanding g) as [|x xs IH]; [reflexivity|].
  cbn [existsb] in H. apply orb_false_elim in H as [Hx Hxs].
  cbn [filter]. unfold lease_eqb at 1. cbn [lease_session].
  unfold on_session in Hx. rewrite Hx. cbn [andb negb]. f_equal. now apply IH.
Qed.

Lemma drive_terminal (r : Run) (events : list RemoteEvent) :
  terminal (status (drive resolvable attempt_cap r events)) = true.
Proof.
  unfold drive.
  destruct (terminal (status (fold_left (advance resolvable attempt_cap) events r))) eqn:T;
    [exact T|reflexivity].
Qed.

(** The ways a run ends. *)

Example run_completes :
  let r := drive (fun _ => false) 3 (new_run "a" "hi")
                 [Acknowledged; Delta "Hel"; Delta "lo"; RunCompleted] in
  status r = Completed /\ accumulated_output r = "Hello" /\ failure r = None.
Proof. repeat split. Qed.

Example run_goes_on_after_known_action :
  let r := drive (String.eqb "lookup") 3 (new_run "a" "hi")
                 [Acknowledged; ActionRequired "lookup"; Delta "ok"; RunCompleted] in
  status r = Completed /\ accumulated_output r = "ok".
Proof. repeat split. Qed.

Example run_fails_on_unknown_action :
  let r := drive (fun _ => false) 3 (new_run "a" "hi")
                 [Acknowledged; ActionRequired "lookup"; Delta "late"] in
  status r = Failed /\ failure r = Some UnsupportedAction.
Proof. repeat split. Qed.

Example run_is_cancelled_on_disconnect :
  let r := drive (fun _ => false) 3 (new_run "a" "hi")
                 [Acknowledged; Delta "He"; ClientDisconnected; Delta "llo"] in
  status r = Cancelled /\ accumulated_output r = "He".
Proof. repeat split. Qed.

Example run_fails_when_retries_run_out :
  let r := drive (fun _ => false) 2 (new_run "a" "hi")
                 [TransportError; TransportError; Acknowledged] in
  status r = Failed /\ failure r = Some UpstreamTransient.
Proof. repeat split. Qed.

Example run_times_out_when_nothing_arrives :
  let r := drive (fun _ => false) 3 (new_run "a" "hi") [Acknowledged] in
  status r = Failed /\ failure r = Some TimedOut.
Proof. repeat split. Qed.

(** C2.  Whatever reaches a run, and so whichever way it ends (completed,
    failed, cancelled, or timed out), the executor gives the gate back
    with the same leases outstanding as before the turn: when the turn was
    admitted, its run has reached a terminal status and no lease for its
    session is outstanding.  Releasing a lease a second time changes
    nothing. *)
Theorem run_executor_always_releases
        (g : Gate) (session_id : string) (history : list HistoryTurn)
        (turn : string) (events : list RemoteEvent) (l : Lease) :
  let done := execute resolvable attempt_cap g session_id history turn events in
  outstanding (gate_after done) = outstanding g
  /\ (forall r, outcome done = Ended r ->
                terminal (status r) = true
                /\ held (gate_after done) session_id = false)
  /\ release (release g l) l = release g l.
Proof.
  intros done. subst done. unfold execute.
  destruct (held g session_id) eqn:H.
  - unfold acquire. rewrite H. cbn. split; [reflexivity|].
    split; [discriminate|apply release_idempotent].
  - pose proof (release_fresh g session_id H) as F.
    unfold acquire in *. rewrite H in *. cbn [fst] in F.
    cbn [gate_after outcome]. split; [exact F|].
    split; [|apply release_idempotent].
    intros r [= <-]. split; [apply drive_terminal|].
    unfold held in *. now rewrite F.
Qed.

End ExecutorFacts.

(* ================================================================== *)
(** * The theorems at sample inputs *)
(* ================================================================== *)



Lemma sendMessage_error_appends_fallback_sample :
  request_errors (FetchResolved {| ok := false; body := None |}) = true
  /\ ChatInterface.isLoading
       (fst (ChatInterface.sendMessage Sample.JSON_parse ChatInterface.initial
               "hi" Sample.noon (FetchResolved {| ok := false; body := None |})
               Sample.later))
     = false.
Proof.
  assert (B : trim "hi" <> "") by (vm_compute; discriminate).
  split; [reflexivity|].
  exact (proj2 (proj2 (proj2
    (sendMessage_error_appends_fallback Sample.JSON_parse ChatInterface.initial
       "hi" Sample.noon Sample.later (FetchResolved {| ok := false; body := None |})
       eq_refl B eq_refl)))).
Defined.

Lemma processAudio_blank_transcript_sample :
  trim "  " = ""
  /\ snd (VoiceInterface.processAudio VoiceInterface.initial []
            (VoiceInterface.TranscribeResolved true (Some Sample.blank_transcription))
            {| VoiceInterface.Date_now := 0; VoiceInterface.new_Date := 0 |}
            VoiceInterface.ChatRejected
            {| VoiceInterface.Date_now := 0; VoiceInterface.new_Date := 0 |}
            VoiceInterface.Started)
     = [VoiceInterface.Transcribe []].
Proof.
  split; [reflexivity|].
  exact (proj1
    (processAudio_blank_transcript VoiceInterface.initial [] Sample.blank_transcription
       "  " {| VoiceInterface.Date_now := 0; VoiceInterface.new_Date := 0 |}
       {| VoiceInterface.Date_now := 0; VoiceInterface.new_Date := 0 |}
       VoiceInterface.ChatRejected VoiceInterface.Started eq_refl eq_refl)).
Defined.

Lemma run_gate_grants_one_lease_per_session_sample :
  RunGate.held (RunGate.after Sample.gate_history) "b" = true
  /\ RunGate.acquire (RunGate.after Sample.gate_history) "b"
     = (RunGate.after Sample.gate_history, RunGate.Busy)
  /\ RunGate.held (RunGate.after Sample.gate_history) "a" = false
  /\ length (filter (RunGate.is_grant_for "a")
               (snd (RunGate.contend (RunGate.after Sample.gate_history)
                       ["a"; "b"; "a"; "a"])))
     = 1
  /\ length (filter (RunGate.is_busy_for "a")
               (snd (RunGate.contend (RunGate.after Sample.gate_history)
                       ["a"; "b"; "a"; "a"])))
     = 2.
Proof.
  split; [reflexivity|].
  split.
  - exact (proj1 (proj2
      (run_gate_grants_one_lease_per_session Sample.gate_history "b" [])) eq_refl).
  - split; [reflexivity|].
    exact (proj2 (proj2
      (run_gate_grants_one_lease_per_session Sample.gate_history "a"
         ["a"; "b"; "a"; "a"])) eq_refl (or_introl eq_refl)).
Defined.

Lemma run_executor_always_releases_sample :
  RunExecutor.outcome
    (RunExecutor.execute (fun _ => false) 3 (RunGate.after Sample.gate_history)
       "a" [] "What is the Ariya?"
       [RunExecutor.Acknowledged; RunExecutor.Delta "The"; RunExecutor.ClientDisconnected])
  = RunExecutor.Ended
      {| RunExecutor.run_session := "a";
         RunExecutor.submitted_turn := "What is the Ariya?";
         RunExecutor.status := RunExecutor.Cancelled;
         RunExecutor.accumulated_output := "The";
         RunExecutor.attempts := 0;
         RunExecutor.failure := None |}
  /\ RunGate.held
       (RunExecutor.gate_after
          (RunExecutor.execute (fun _ => false) 3 (RunGate.after Sample.gate_history)
             "a" [] "What is the Ariya?"
             [RunExecutor.Acknowledged; RunExecutor.Delta "The";
              RunExecutor.ClientDisconnected]))
       "a"
     = false.
Proof.
  split; [reflexivity|].
  exact (proj2 (proj1 (proj2
    (run_executor_always_releases (fun _ => false) 3
       (RunGate.after Sample.gate_history) "a" [] "What is the Ariya?"
       [RunExecutor.Acknowledged; RunExecutor.Delta "The"; RunExecutor.ClientDisconnected]
       {| RunGate.lease_session := "a"; RunGate.lease_token := 0 |}))
    _ eq_refl)).
Defined.

(* ================================================================== *)
(** * ChatInterface.tsx: every state the component can reach *)
(* ================================================================== *)

Section ChatInvariants.

Variable JSON_parse : string -> option JSON.

Import ChatInterface.

Lemma alternates_snoc (ms : list Message) (next : Role) (x : Message) :
  alternates next ms = true ->
  role x = (if Nat.even (length ms) then next else other next) ->
  alternates next (ms ++ [x]) = true.
Proof.
  revert next; induction ms as [|m ms IH]; intros next A R.
  - cbn in *. rewrite R. destruct next; reflexivity.
  - cbn [alternates app] in *. apply andb_prop in A as [A1 A2].
    rewrite A1. cbn [andb]. apply IH; [exact A2|].
    rewrite R. cbn [length]. rewrite Nat.even_succ, <- Nat.negb_even.
    destruct (Nat.even (length ms)); destruct next; reflexivity.
Qed.

Lemma even_of_double (n k : nat) : n = 2 * k -> Nat.even n = true.
Proof. intros ->. apply Nat.even_spec. now exists k. Qed.

Lemma odd_of_double (n k : nat) : n + 1 = 2 * k -> Nat.even n = false.
Proof.
  intros H. destruct (Nat.even n) eqn:E; [|reflexivity].
  apply Nat.even_spec in E as [j ->]. lia.
Qed.

Lemma only_call {A : Type} (l : list A) (i : nat) (a : A) :
  length l <= 1 -> nth_error l i = Some a -> l = [a] /\ i = 0.
Proof.
  destruct l as [|x [|y l]]; cbn; intros L N.
  - destruct i; discriminate.
  - destruct i as [|i]; [injection N as ->; now split|]. destruct i; discriminate.
  - lia.
Qed.

(** A line keeps the local [newSessionId] equal to the persisted session. *)
Lemma on_line_closure (st : State) (line : string) :
  snd (on_line JSON_parse (st, sessionId st) line)
  = sessionId (fst (on_line JSON_parse (st, sessionId st) line)).
Proof.
  unfold on_line.
  destruct (startsWith line "data: "); [|reflexivity].
  destruct (String.eqb _ "[DONE]"); [reflexivity|].
  destruct (JSON_parse _) as [v|]; [|reflexivity].
  destruct v; try reflexivity;
    (destruct (property _ "text") as [t|];
     [destruct (truthy (Some t)); [destruct (ToString t)|]|]);
    try reflexivity;
    (destruct (property _ "session_id") as [sid|];
     [destruct (truthy (Some sid) && negb (truthy (Some (sessionId st))))|]);
    reflexivity.
Qed.

Lemma on_chunk_closure (text : string) (st : State) :
  snd (on_chunk JSON_parse (st, sessionId st) text)
  = sessionId (fst (on_chunk JSON_parse (st, sessionId st) text)).
Proof.
  unfold on_chunk. generalize (split_newline text) as lines.
  intros lines; revert st; induction lines as [|l lines IH]; intros st; [reflexivity|].
  cbn [fold_left]. pose proof (on_line_closure st l) as C.
  destruct (on_line JSON_parse (st, sessionId st) l) as [st1 n1].
  cbn [fst snd] in C. subst n1. apply IH.
Qed.

Lemma on_chunk_display (text : string) (st : State) (n : JSON) :
  streamingContent st = streamingRef st ->
  streamingContent (fst (on_chunk JSON_parse (st, n) text))
  = streamingRef (fst (on_chunk JSON_parse (st, n) text)).
Proof. apply (fold_on_line_buffer JSON_parse). Qed.

Lemma step_consistent (m : Machine) (e : Event) :
  Consistent m ->
  (forall messageText clk, e = Send messageText clk -> rendered m = ui m) ->
  Consistent (step JSON_parse m e).
Proof.
  intros [One Load Disp Idle Roles Count Clos NoSess] Fresh.
  destruct e as [messageText clk| |value|shown|lit|i h clk|i r clk];
    cbn [step].
  - rewrite (Fresh _ _ eq_refl), sendMessage_called_latest.
    destruct (sendMessage_begin (ui m) messageText clk) as [[st1 req]|] eqn:E;
      [|now constructor].
    pose proof (sendMessage_begin_started _ _ _ _ _ E)
      as (L & _ & _ & (u & Mu & Ru & _) & L1 & S1 & R1 & C1).
    rewrite L in *.
    assert (R0 : running m = []).
    { destruct (running m); [reflexivity|discriminate Load]. }
    constructor; cbn [ui running sent]; rewrite ?R0, ?L1, ?Mu, ?R1, ?C1, ?S1,
      ?length_app; cbn [length app]; try reflexivity; try lia.
    + apply alternates_snoc; [assumption|].
      rewrite (even_of_double _ (length (sent m))) by lia. exact Ru.
    + now repeat constructor.
    + intros H. destruct (sent m); discriminate H.
  - now constructor.
  - now constructor.
  - now constructor.
  - now constructor.
  - destruct (nth_error (running m) i) as [[seen|n]|] eqn:N;
      try (now constructor).
    destruct (only_call _ _ _ One N) as [R0 ->].
    rewrite R0 in *. cbn in Load.
    assert (Cs : seen = sessionId (ui m)) by now inversion Clos.
    assert (Settled : Consistent
              {| ui := sendMessage_catch (ui m) clk; rendered := rendered m;
                 running := []; sent := sent m |}).
    { rewrite Load in Count.
      constructor; cbn [ui running sent length]; try reflexivity; try (cbn; lia).
      - cbn. apply alternates_snoc; [assumption|].
        now rewrite (odd_of_double _ (length (sent m))) by lia.
      - cbn. rewrite length_app. cbn. lia.
      - constructor.
      - exact NoSess. }
    destruct h as [|[|] [|]]; cbn [drop_at put_at]; try exact Settled.
    constructor; cbn [ui running sent length]; try assumption; try lia.
    + now repeat constructor.
  - destruct (nth_error (running m) i) as [[seen|n]|] eqn:N;
      try (now constructor).
    destruct (only_call _ _ _ One N) as [R0 ->].
    rewrite R0 in *. cbn in Load.
    assert (Cs : n = sessionId (ui m)) by now inversion Clos.
    rewrite Load in Count.
    destruct r as [text| |]; cbn [drop_at put_at].
    + subst n.
      pose proof (on_chunk_frame JSON_parse (ui m) (sessionId (ui m)) text)
        as (Mf & _ & Lf & _).
      pose proof (on_chunk_closure text (ui m)) as Cl.
      pose proof (on_chunk_display text (ui m) (sessionId (ui m)) Disp) as Dp.
      destruct (on_chunk JSON_parse (ui m, sessionId (ui m)) text) as [st1 n1].
      cbn [fst snd] in *.
      constructor; cbn [ui running sent length]; rewrite ?Lf, ?Mf, ?Load;
        try assumption; try reflexivity; try lia.
      * constructor; [exact Cl|constructor].
      * intros H. rewrite H in Count. cbn in Count. lia.
    + constructor; cbn [ui running sent length]; try reflexivity; try (cbn; lia).
      * cbn. apply alternates_snoc; [assumption|].
        now rewrite (odd_of_double _ (length (sent m))) by lia.
      * cbn. rewrite length_app. cbn. lia.
      * constructor.
      * exact NoSess.
    + constructor; cbn [ui running sent length]; try reflexivity; try (cbn; lia).
      * cbn. apply alternates_snoc; [assumption|].
        now rewrite (odd_of_double _ (length (sent m))) by lia.
      * cbn. rewrite length_app. cbn. lia.
      * constructor.
      * exact NoSess.
Qed.

Lemma start_consistent : Consistent start.
Proof. constructor; cbn; try reflexivity; try lia; constructor. Qed.

(** While every call follows a render, the component stays consistent;
    [b] says whether a render is the last thing that happened to [m]. *)
Lemma run_consistent_through (es es' : list Event) (b : bool) (m : Machine) :
  Consistent m ->
  (b = true -> rendered m = ui m) ->
  sends_follow_render b (es ++ es') = true ->
  exists b',
    Consistent (run JSON_parse m es)
    /\ (b' = true -> rendered (run JSON_parse m es) = ui (run JSON_parse m es))
    /\ sends_follow_render b' es' = true.
Proof.
  revert b m; induction es as [|e es IH]; intros b m C V F.
  - exists b. split; [exact C|]. split; [exact V|exact F].
  - unfold run. cbn [fold_left app] in *.
    assert (C1 : Consistent (step JSON_parse m e)).
    { apply step_consistent; [exact C|].
      intros t c ->. cbn [sends_follow_render] in F.
      apply andb_prop in F as [F _]. now apply V. }
    destruct e as [messageText clk| |value|shown|lit|i h clk|i r clk];
      cbn [sends_follow_render] in F;
      try (apply (IH false _ C1); [discriminate|exact F]).
    + apply andb_prop in F as [_ F]. apply (IH false _ C1); [discriminate|exact F].
    + apply (IH true _ C1); [reflexivity|exact F].
Qed.

Lemma run_consistent (es : list Event) :
  sends_follow_render true es = true -> Consistent (run JSON_parse start es).
Proof.
  intros F.
  destruct (run_consistent_through es [] true start start_consistent
              (fun _ => eq_refl)) as (b' & C & _).
  - now rewrite app_nil_r.
  - exact C.
Qed.

(** X1.  As long as every call of [sendMessage] is made right after a
    render, in every state the component reaches the loading flag is up
    exactly while one request is in flight, and down exactly while none
    is. *)
Theorem loading_flag_tracks_request_in_flight (es : list Event) :
  sends_follow_render true es = true ->
  let m := run JSON_parse start es in
  (isLoading (ui m) = true <-> in_flight m = 1)
  /\ (isLoading (ui m) = false <-> in_flight m = 0).
Proof.
  intros F m. destruct (run_consistent es F) as [One Load _ _ _ _ _ _].
  fold m in One, Load. unfold in_flight. rewrite Load.
  destruct (length (running m)) as [|[|k]]; cbn; [| |lia]; split; split;
    intros H; try reflexivity; try discriminate H; lia.
Qed.

Lemma step_display (m : Machine) (e : Event) :
  streamingContent (ui m) = streamingRef (ui m) ->
  streamingContent (ui (step JSON_parse m e))
  = streamingRef (ui (step JSON_parse m e)).
Proof.
  intros D.
  destruct e as [messageText clk| |value|shown|lit|i h clk|i r clk];
    cbn [step]; try exact D.
  - destruct (sendMessage_called (rendered m) (ui m) messageText clk)
      as [[st1 req]|] eqn:E; [|exact D].
    pose proof (sendMessage_called_started _ _ _ _ _ _ E)
      as (_ & _ & _ & _ & _ & _ & R1 & C1).
    cbn [ui]. congruence.
  - destruct (nth_error (running m) i) as [[seen|n]|]; try exact D.
    destruct h as [|[|] [|]]; cbn [ui]; try exact D; reflexivity.
  - destruct (nth_error (running m) i) as [[seen|n]|]; try exact D.
    destruct r as [text| |]; cbn [ui]; try reflexivity.
    pose proof (on_chunk_display text (ui m) n D) as Dp.
    destruct (on_chunk JSON_parse (ui m, n) text) as [st1 n1]. exact Dp.
Qed.

Lemma run_display (es : list Event) (m : Machine) :
  streamingContent (ui m) = streamingRef (ui m) ->
  streamingContent (ui (run JSON_parse m es))
  = streamingRef (ui (run JSON_parse m es)).
Proof.
  revert m; induction es as [|e es IH]; intros m D; [exact D|].
  unfold run. cbn [fold_left]. apply IH. now apply step_display.
Qed.

(** X2.  In every state the component reaches, whatever the order of
    events and renders, the streaming text on display is the buffer
    [streamingRef.current].  As long as every call of [sendMessage] is made
    right after a render, the buffer is empty whenever the loading flag is
    down, so that the streaming bubble is rendered exactly while the
    loading flag is up. *)
Theorem streaming_bubble_follows_loading (es : list Event) :
  let m := run JSON_parse start es in
  streamingContent (ui m) = streamingRef (ui m)
  /\ (sends_follow_render true es = true ->
      shows_streaming (ui m) = isLoading (ui m)).
Proof.
  intros m. split; [now apply run_display|].
  intros F. destruct (run_consistent es F) as [_ _ Disp Idle _ _ _ _].
  fold m in Disp, Idle.
  unfold shows_streaming. destruct (isLoading (ui m)); [reflexivity|].
  rewrite Disp, Idle by reflexivity. reflexivity.
Qed.

(** X3.  As long as every call of [sendMessage] is made right after a
    render, in every state the component reaches the transcript starts
    with a user message and user and assistant messages take turns; it
    holds two messages for every request sent, less the assistant message
    of the request still in flight. *)
Theorem transcript_takes_turns (es : list Event) :
  sends_follow_render true es = true ->
  let m := run JSON_parse start es in
  alternates user (messages (ui m)) = true
  /\ length (messages (ui m)) + (if isLoading (ui m) then 1 else 0)
     = 2 * length (sent m).
Proof.
  intros F m. destruct (run_consistent es F) as [_ _ _ _ Roles Count _ _].
  now split.
Qed.

Lemma suggested_is_trimmed (q : string) :
  In q SUGGESTED_QUESTIONS -> trim q = q /\ q <> "".
Proof.
  intros [<-|[<-|[<-|[<-|[]]]]]; split; try reflexivity; discriminate.
Qed.

(** While the transcript is empty no call has passed the guard: nothing
    was sent, nothing is in flight, and both the state and the state the
    latest render saw are idle and without a session. *)
Lemma step_untouched (m : Machine) (e : Event) :
  (messages (ui m) = [] ->
   sent m = [] /\ running m = []
   /\ isLoading (rendered m) = false /\ sessionId (rendered m) = JNull
   /\ isLoading (ui m) = false /\ sessionId (ui m) = JNull) ->
  messages (ui (step JSON_parse m e)) = [] ->
  sent (step JSON_parse m e) = [] /\ running (step JSON_parse m e) = []
  /\ isLoading (rendered (step JSON_parse m e)) = false
  /\ sessionId (rendered (step JSON_parse m e)) = JNull
  /\ isLoading (ui (step JSON_parse m e)) = false
  /\ sessionId (ui (step JSON_parse m e)) = JNull.
Proof.
  intros P H.
  assert (M : messages (ui m) = []).
  { destruct (step_appends JSON_parse m e) as (added & A).
    rewrite H in A. symmetry in A. now apply app_eq_nil in A. }
  destruct (P M) as (S0 & R0 & L1 & N1 & L2 & N2).
  destruct e as [messageText clk| |value|shown|lit|i h clk|i r clk];
    cbn [step] in *; try (now repeat split).
  - destruct (sendMessage_called (rendered m) (ui m) messageText clk)
      as [[st1 req]|] eqn:E; [|now repeat split].
    pose proof (sendMessage_called_started _ _ _ _ _ _ E)
      as (_ & _ & _ & (u & Mu & _) & _).
    cbn [ui] in H. rewrite H in Mu. symmetry in Mu.
    apply app_eq_nil in Mu as [_ Mu]. discriminate Mu.
  - rewrite R0. destruct i; now repeat split.
  - rewrite R0. destruct i; now repeat split.
Qed.

Lemma run_untouched (es : list Event) (m : Machine) :
  (messages (ui m) = [] ->
   sent m = [] /\ running m = []
   /\ isLoading (rendered m) = false /\ sessionId (rendered m) = JNull
   /\ isLoading (ui m) = false /\ sessionId (ui m) = JNull) ->
  messages (ui (run JSON_parse m es)) = [] ->
  sent (run JSON_parse m es) = [] /\ running (run JSON_parse m es) = []
  /\ isLoading (rendered (run JSON_parse m es)) = false
  /\ sessionId (rendered (run JSON_parse m es)) = JNull
  /\ isLoading (ui (run JSON_parse m es)) = false
  /\ sessionId (ui (run JSON_parse m es)) = JNull.
Proof.
  revert m; induction es as [|e es IH]; intros m P; [exact P|].
  unfold run. cbn [fold_left]. apply IH. now apply step_untouched.
Qed.

(** X4.  In a state the component can reach, while the welcome screen with
    the suggested questions is rendered, nothing has been sent and nothing
    is in flight, and a click on a suggested question sends that question,
    as it is written and without a session. *)
Theorem suggested_question_is_sent_as_written
        (es : list Event) (q : string) (clk : Clock) :
  let m := run JSON_parse start es in
  shows_welcome (ui m) = true ->
  In q SUGGESTED_QUESTIONS ->
  sent m = [] /\ in_flight m = 0
  /\ sent (step JSON_parse m (Send q clk)) = [{| message := q; session_id := JNull |}].
Proof.
  intros m W Q.
  unfold shows_welcome in W. apply andb_prop in W as [W _].
  apply Nat.eqb_eq in W. apply length_zero_iff_nil in W.
  destruct (run_untouched es start (fun _ => ltac:(now repeat split)) W)
    as (S0 & R0 & L1 & N1 & _).
  fold m in S0, R0, L1, N1.
  split; [exact S0|]. split; [unfold in_flight; now rewrite R0|].
  destruct (suggested_is_trimmed q Q) as [T N].
  cbn [step]. unfold sendMessage_called. rewrite T, L1.
  apply String.eqb_neq in N. rewrite N. cbn [orb sent].
  now rewrite S0, N1.
Qed.

Lemma step_session_kept (m : Machine) (e : Event) :
  Consistent m ->
  (forall messageText clk, e = Send messageText clk -> rendered m = ui m) ->
  truthy (Some (sessionId (ui m))) = true ->
  sessionId (ui (step JSON_parse m e)) = sessionId (ui m)
  /\ exists added,
       sent (step JSON_parse m e) = sent m ++ added
       /\ Forall (fun r => session_id r = sessionId (ui m)) added.
Proof.
  intros [One _ _ _ _ _ Clos _] Fresh T.
  assert (Same : forall st, sessionId st = sessionId (ui m) ->
            sessionId st = sessionId (ui m)
            /\ exists added, sent m = sent m ++ added
                 /\ Forall (fun r => session_id r = sessionId (ui m)) added).
  { intros st H. split; [exact H|]. exists []. rewrite app_nil_r. now split. }
  destruct e as [messageText clk| |value|shown|lit|i h clk|i r clk];
    cbn [step]; try (now apply Same).
  - rewrite (Fresh _ _ eq_refl), sendMessage_called_latest.
    destruct (sendMessage_begin (ui m) messageText clk) as [[st1 req]|] eqn:E;
      [|now apply Same].
    pose proof (sendMessage_begin_started _ _ _ _ _ E)
      as (_ & _ & -> & _ & _ & S1 & _).
    cbn [ui sent]. split; [exact S1|].
    eexists. split; [reflexivity|]. now repeat constructor.
  - destruct (nth_error (running m) i) as [[seen|n]|] eqn:N;
      try (now apply Same).
    destruct h as [|[|] [|]]; cbn [ui sent]; now apply Same.
  - destruct (nth_error (running m) i) as [[seen|n]|] eqn:N;
      try (now apply Same).
    destruct (only_call _ _ _ One N) as [R0 ->].
    rewrite R0 in Clos. assert (Cs : n = sessionId (ui m)) by now inversion Clos.
    destruct r as [text| |]; cbn [ui sent]; try (now apply Same).
    subst n.
    destruct (read_loop_session_kept JSON_parse [text] (ui m) (sessionId (ui m)) T)
      as [K _].
    unfold read_loop in K. cbn [fold_left] in K.
    destruct (on_chunk JSON_parse (ui m, sessionId (ui m)) text) as [st1 n1].
    cbn [fst ui sent] in *. now apply Same.
Qed.

Lemma run_session_kept (es : list Event) (b : bool) (m : Machine) :
  Consistent m ->
  (b = true -> rendered m = ui m) ->
  sends_follow_render b es = true ->
  truthy (Some (sessionId (ui m))) = true ->
  sessionId (ui (run JSON_parse m es)) = sessionId (ui m)
  /\ exists added,
       sent (run JSON_parse m es) = sent m ++ added
       /\ Forall (fun r => session_id r = sessionId (ui m)) added.
Proof.
  revert b m; induction es as [|e es IH]; intros b m C V F T.
  - split; [reflexivity|]. exists []. rewrite app_nil_r. now split.
  - unfold run. cbn [fold_left].
    assert (Fr : forall t c, e = Send t c -> rendered m = ui m).
    { intros t c ->. cbn [sends_follow_render] in F.
      apply andb_prop in F as [F _]. now apply V. }
    destruct (step_session_kept m e C Fr T) as (S1 & a1 & Q1 & F1).
    pose proof (step_consistent m e C Fr) as C1.
    assert (T1 : truthy (Some (sessionId (ui (step JSON_parse m e)))) = true)
      by now rewrite S1.
    assert (Next : exists b',
               (b' = true -> rendered (step JSON_parse m e) = ui (step JSON_parse m e))
               /\ sends_follow_render b' es = true).
    { destruct e as [messageText clk| |value|shown|lit|i h clk|i r clk];
        cbn [sends_follow_render] in F;
        try (exists false; split; [discriminate|exact F]).
      - apply andb_prop in F as [_ F]. exists false. split; [discriminate|exact F].
      - exists true. split; [reflexivity|exact F]. }
    destruct Next as (b' & V1 & F').
    destruct (IH b' _ C1 V1 F' T1) as (S2 & a2 & Q2 & F2).
    unfold run in S2, Q2. rewrite S1 in *.
    split; [exact S2|]. exists (a1 ++ a2).
    rewrite Q2, Q1, app_assoc. split; [reflexivity|]. now apply Forall_app.
Qed.

(** X5.  As long as every call of [sendMessage] is made right after a
    render: once the component holds a session, nothing that happens to it
    afterwards, in whatever order, changes that session, and every request
    sent from then on carries it. *)
Theorem session_is_set_once (es es' : list Event) :
  sends_follow_render true (es ++ es') = true ->
  let m := run JSON_parse start es in
  let m' := run JSON_parse m es' in
  truthy (Some (sessionId (ui m))) = true ->
  sessionId (ui m') = sessionId (ui m)
  /\ exists added,
       sent m' = sent m ++ added
       /\ Forall (fun r => session_id r = sessionId (ui m)) added.
Proof.
  intros F m m' T. subst m'.
  destruct (run_consistent_through es es' true start start_consistent
              (fun _ => eq_refl) F) as (b' & C & V & F').
  now apply (run_session_kept es' b' m C V F' T).
Qed.


End ChatInvariants.

Lemma to_int_not_nil (z : Z) :
  Z.to_int z <> Decimal.Pos Decimal.Nil /\ Z.to_int z <> Decimal.Neg Decimal.Nil.
Proof.
  split; intros H; pose proof (f_equal Z.of_int H) as E;
    rewrite DecimalZ.of_to in E; cbn in E; subst z; vm_compute in H;
    discriminate H.
Qed.

(** Distinct numbers print differently. *)
Lemma Number_toString_inj (a b : Z) :
  Number_toString a = Number_toString b -> a = b.
Proof.
  unfold Number_toString. intros H.
  apply (f_equal NilZero.int_of_string) in H.
  destruct (to_int_not_nil a) as [A1 A2]. destruct (to_int_not_nil b) as [B1 B2].
  rewrite !NilZero.isi in H by assumption.
  injection H as H. now apply DecimalZ.to_int_inj.
Qed.

(* ================================================================== *)
(** * ChatInterface.tsx: the ids of the messages *)
(* ================================================================== *)

Section ChatIdFacts.

Variable JSON_parse : string -> option JSON.

Import ChatInterface.

Lemma sendMessage_ids (st : State) (messageText : string) (clk clk' : Clock)
      (f : FetchOutcome) :
  map id (messages (fst (sendMessage JSON_parse st messageText clk f clk')))
  = map id (messages st)
      ++ (if String.eqb (trim messageText) "" || isLoading st then []
          else [Number_toString (Date_now clk); Number_toString (Date_now clk' + 1)]).
Proof.
  unfold sendMessage, sendMessage_begin.
  destruct (String.eqb (trim messageText) "" || isLoading st);
    [cbn; now rewrite app_nil_r|].
  set (st1 := setStreamingContent _ _).
  assert (M1 : map id (messages st1)
               = map id (messages st) ++ [Number_toString (Date_now clk)])
    by (subst st1; cbn; now rewrite map_app).
  assert (Catch : forall x, messages x = messages st1 ->
            map id (messages (sendMessage_catch x clk'))
            = map id (messages st)
                ++ [Number_toString (Date_now clk); Number_toString (Date_now clk' + 1)]).
  { intros x Hx. cbn. rewrite map_app, Hx, M1, <- app_assoc. reflexivity. }
  assert (Done : forall x, messages x = messages st1 ->
            map id (messages (sendMessage_done x clk'))
            = map id (messages st)
                ++ [Number_toString (Date_now clk); Number_toString (Date_now clk' + 1)]).
  { intros x Hx. cbn. rewrite map_app, Hx, M1, <- app_assoc. reflexivity. }
  destruct f as [|r]; [now apply Catch|].
  destruct (negb (ok r)); [now apply Catch|].
  destruct (body r) as [b|]; [|now apply Catch].
  destruct (read_loop_frame JSON_parse (chunks b) st1 (sessionId st)) as (Mf & _).
  destruct (read_loop JSON_parse (st1, sessionId st) (chunks b)) as [st2 n2].
  cbn [fst] in Mf. destruct (ending b); cbn [fst]; [now apply Done|now apply Catch].
Qed.

(** The ids of a transcript are the prints of increasing numbers, none
    above [floor]. *)
Lemma conversation_ids (turns : list Turn) (st : State) (floor : Z) (zs : list Z) :
  map id (messages st) = map Number_toString zs ->
  StronglySorted Z.lt zs ->
  Forall (fun z => (z <= floor)%Z) zs ->
  paced floor turns ->
  exists zs',
    map id (messages (fst (conversation JSON_parse st turns)))
    = map Number_toString zs'
    /\ StronglySorted Z.lt zs'.
Proof.
  revert st floor zs; induction turns as [|t turns IH]; intros st floor zs I S B P.
  - exists zs. now split.
  - cbn [conversation]. destruct P as (P1 & P2 & P3).
    pose proof (sendMessage_ids st (turn_text t) (turn_start t) (turn_end t)
                  (turn_fetch t)) as Ids.
    unfold take_turn.
    destruct (sendMessage JSON_parse st (turn_text t) (turn_start t)
                (turn_fetch t) (turn_end t)) as [st1 sent1].
    cbn [fst] in Ids.
    set (added := if String.eqb (trim (turn_text t)) "" || isLoading st
                  then [] else [Date_now (turn_start t); Date_now (turn_end t) + 1]%Z).
    assert (I1 : map id (messages st1) = map Number_toString (zs ++ added)).
    { rewrite Ids, I, map_app. subst added.
      destruct (String.eqb (trim (turn_text t)) "" || isLoading st); reflexivity. }
    assert (A : StronglySorted Z.lt added
                /\ Forall (fun z => (floor < z <= Date_now (turn_end t) + 1)%Z) added).
    { subst added. destruct (String.eqb _ "" || isLoading st).
      - split; constructor.
      - split.
        + repeat constructor. lia.
        + repeat constructor; lia. }
    destruct A as [A1 A2].
    assert (S1 : StronglySorted Z.lt (zs ++ added)).
    { clear - S B A1 A2. induction zs as [|z zs IHz]; [exact A1|].
      inversion S as [|? ? Sz Fz]; subst. inversion B as [|? ? Bz Bzs]; subst.
      cbn. constructor; [now apply IHz|].
      apply Forall_app. split; [exact Fz|].
      eapply Forall_impl; [|exact A2]. intros a Ha. cbn in Ha. lia. }
    assert (B1 : Forall (fun z => (z <= Date_now (turn_end t) + 1)%Z) (zs ++ added)).
    { apply Forall_app. split.
      - eapply Forall_impl; [|exact B]. intros a Ha. cbn in Ha. lia.
      - eapply Forall_impl; [|exact A2]. intros a Ha. cbn in Ha. lia. }
    destruct (IH st1 _ _ I1 S1 B1 P3) as (zs' & I' & S').
    destruct (conversation JSON_parse st1 turns) as [st2 sent2]. cbn [fst] in *.
    exists zs'. now split.
Qed.

Lemma increasing_prints_differ (zs : list Z) :
  StronglySorted Z.lt zs -> NoDup (map Number_toString zs).
Proof.
  induction 1 as [|z zs S IH F]; [constructor|].
  cbn. constructor; [|exact IH].
  intros M. apply in_map_iff in M as (y & E & Y).
  apply Number_toString_inj in E. subst y.
  rewrite Forall_forall in F. specialize (F z Y). lia.
Qed.

(** X6.  In a conversation from the initial state in which the clock
    never runs backwards within a turn and every turn starts more than a
    millisecond after the one before it ended, all messages of the
    transcript have different ids (the ids are the keys the messages are
    rendered under). *)
Theorem message_ids_are_distinct (turns : list Turn) (floor : Z) :
  paced floor turns ->
  NoDup (map id (messages (fst (conversation JSON_parse initial turns)))).
Proof.
  intros P.
  destruct (conversation_ids turns initial floor [] eq_refl
              (SSorted_nil _) (Forall_nil _) P) as (zs & I & S).
  rewrite I. now apply increasing_prints_differ.
Qed.

End ChatIdFacts.

(** A turn that starts exactly one millisecond after the one before it
    ended gets the id of that turn's assistant message. *)
Example hasty_turn_repeats_an_id :
  map ChatInterface.id
      (ChatInterface.messages
         (fst (ChatInterface.conversation Sample.JSON_parse ChatInterface.initial
                 [Sample.first_turn; Sample.hasty_turn])))
  = ["1700000000000"; "1700000002501"; "1700000002501"; "1700000009001"].
Proof. reflexivity. Qed.

(* ================================================================== *)
(** * The two readers of the stream *)
(* ================================================================== *)

Section ReaderFacts.

Variable JSON_parse : string -> option JSON.

Lemma readers_agree_on_lines (lines : list string) :
  forallb (fun line =>
             negb (startsWith line "data: ")
             || String.eqb (trim (slice 6 line)) (slice 6 line)) lines = true ->
  existsb Api.is_sentinel lines = false ->
  Api.payloads JSON_parse lines = ChatInterface.events_of_lines JSON_parse lines.
Proof.
  induction lines as [|l lines IH]; [reflexivity|].
  cbn [forallb existsb Api.payloads ChatInterface.events_of_lines].
  intros T S. apply andb_prop in T as [Tl T]. apply orb_false_elim in S as [Sl S].
  rewrite (IH T S).
  unfold Api.parsed_payload, ChatInterface.event_of_line.
  rewrite <- (sentinel_test l) in Sl.
  destruct (startsWith l "data: "); [|reflexivity].
  cbn [negb orb andb] in Tl, Sl. apply String.eqb_eq in Tl.
  rewrite Tl, Sl. reflexivity.
Qed.

Lemma before_sentinel_has_none (lines : list string) :
  existsb Api.is_sentinel (Api.before_sentinel lines) = false.
Proof.
  induction lines as [|l lines IH]; [reflexivity|].
  cbn [Api.before_sentinel]. destruct (Api.is_sentinel l) eqn:S; [reflexivity|].
  cbn [existsb]. now rewrite S, IH.
Qed.

Lemma before_sentinel_forallb (P : string -> bool) (lines : list string) :
  forallb P lines = true -> forallb P (Api.before_sentinel lines) = true.
Proof.
  induction lines as [|l lines IH]; [reflexivity|].
  cbn [forallb Api.before_sentinel]. intros H. apply andb_prop in H as [Hl H].
  destruct (Api.is_sentinel l); [reflexivity|].
  cbn [forallb]. now rewrite Hl, IH.
Qed.

(** X7.  On a stream whose payloads have no white space around them,
    [streamChatMessage] yields exactly the events that the reader of
    [sendMessage] parses from the lines before the sentinel; when the
    stream holds no sentinel, the two read the same events. *)
Theorem readers_agree_up_to_sentinel (cs : list string) (e : ReadEnd) :
  Api.payloads_trimmed cs = true ->
  fst (Api.streamChatMessage JSON_parse (streamed cs e))
  = ChatInterface.events_of_lines JSON_parse
      (Api.before_sentinel (Api.event_lines cs))
  /\ (existsb Api.is_sentinel (Api.event_lines cs) = false ->
      fst (Api.streamChatMessage JSON_parse (streamed cs e))
      = ChatInterface.parsed_events JSON_parse cs).
Proof.
  intros T.
  assert (Y : fst (Api.streamChatMessage JSON_parse (streamed cs e))
              = Api.payloads JSON_parse (Api.before_sentinel (Api.event_lines cs))).
  { unfold Api.streamChatMessage, streamed. cbn [ok body chunks ending negb].
    rewrite stream_chunks_spec.
    destruct (existsb Api.is_sentinel (Api.event_lines cs)); destruct e; reflexivity. }
  assert (A : fst (Api.streamChatMessage JSON_parse (streamed cs e))
              = ChatInterface.events_of_lines JSON_parse
                  (Api.before_sentinel (Api.event_lines cs))).
  { rewrite Y. apply readers_agree_on_lines.
    - now apply before_sentinel_forallb.
    - apply before_sentinel_has_none. }
  split; [exact A|].
  intros S. rewrite A, (before_sentinel_none _ S). reflexivity.
Qed.

End ReaderFacts.

(* ================================================================== *)
(** * CallbackForm.tsx: what is sent *)
(* ================================================================== *)

Section CallbackRequestFacts.

Import CallbackForm.

Lemma digit_is_no_space (c : ascii) : isDigit c = true -> isWhiteSpace c = false.
Proof.
  unfold isDigit, isWhiteSpace. generalize (nat_of_ascii c) as n. intros n H.
  apply andb_prop in H as [A B]. apply Nat.leb_le in A, B.
  repeat (apply orb_false_intro).
  - apply andb_false_intro2. apply Nat.leb_gt. lia.
  - apply Nat.eqb_neq. lia.
  - apply Nat.eqb_neq. lia.
Qed.

Lemma clean_is_digits (s : string) :
  Forall (fun c => isDigit c || isWhiteSpace c = true) (chars s) ->
  Forall (fun c => isDigit c = true) (chars (delete_all isWhiteSpace s)).
Proof.
  induction s as [|c s IH]; cbn; intros H; [constructor|].
  inversion H as [|? ? Hc Hs]; subst.
  destruct (isWhiteSpace c) eqn:W; [now apply IH|].
  rewrite orb_false_r in Hc. cbn. constructor; [exact Hc|now apply IH].
Qed.

Lemma clean_of_filtered (v : string) :
  delete_all isWhiteSpace (delete_all neither_digit_nor_space v)
  = delete_all not_digit v.
Proof.
  induction v as [|c v IH]; [reflexivity|].
  cbn [delete_all]. unfold neither_digit_nor_space at 1, not_digit at 1.
  destruct (isDigit c) eqn:D; cbn [orb negb].
  - cbn [delete_all]. rewrite (digit_is_no_space c D). now rewrite IH.
  - destruct (isWhiteSpace c) eqn:W; cbn [negb]; [|exact IH].
    cbn [delete_all]. rewrite W. exact IH.
Qed.

Lemma step_country_listed (st : State) (e : Event) :
  In (selectedCountry st) COUNTRIES -> In (selectedCountry (step st e)) COUNTRIES.
Proof.
  intros H. destruct e as [value|value|sessionId o]; cbn [step].
  - unfold onChange. destruct (status st); exact H.
  - unfold onSelect.
    destruct (find (fun c => String.eqb (code c) value) COUNTRIES) as [c|] eqn:F;
      [|exact H].
    apply find_some in F as [F _]. exact F.
  - unfold handleSubmit.
    destruct ((_ <? 6)%nat || (15 <? _)%nat); [exact H|].
    destruct o as [[m|]|[d|]|]; exact H.
Qed.

Lemma run_country_listed (es : list Event) (st : State) :
  In (selectedCountry st) COUNTRIES -> In (selectedCountry (run st es)) COUNTRIES.
Proof.
  revert st; induction es as [|e es IH]; intros st H; [exact H|].
  unfold run. cbn [fold_left]. apply IH. now apply step_country_listed.
Qed.

Lemma handleSubmit_requests (st : State) (sessionId : JSON) (o : CallOutcome) :
  let cleanNumber := delete_all isWhiteSpace (phoneNumber st) in
  Forall (fun r => phone_number r = cleanNumber
                   /\ 6 <= String.length cleanNumber <= 15
                   /\ country_code r = code (selectedCountry st)
                   /\ language r = lang (selectedCountry st)
                   /\ session_id r = sessionId)
         (snd (fst (handleSubmit st sessionId o))).
Proof.
  intros cleanNumber. unfold handleSubmit. fold cleanNumber.
  destruct (String.length cleanNumber <? 6)%nat eqn:A;
    [constructor|destruct (15 <? String.length cleanNumber)%nat eqn:B];
    cbn [orb]; [constructor|].
  apply Nat.ltb_ge in A, B.
  destruct o as [[m|]|[d|]|]; cbn;
    (constructor; [repeat split; lia|constructor]).
Qed.

(** X8.  Whatever is typed, selected and submitted in the form, starting
    from the empty form, a request that [handleSubmit] sends carries a
    phone number of 6 to 15 digits and nothing else, and the dial code and
    the language of one and the same entry of [COUNTRIES]. *)
Theorem call_requests_are_well_formed
        (es : list Event) (sessionId : JSON) (o : CallOutcome) :
  Forall well_formed (snd (fst (handleSubmit (run initial es) sessionId o))).
Proof.
  pose proof (run_number_clean es initial (Forall_nil _)) as Clean.
  assert (Listed : In (selectedCountry (run initial es)) COUNTRIES).
  { apply run_country_listed. cbn. now left. }
  eapply Forall_impl; [|apply handleSubmit_requests].
  intros r (P & L & C & G & _). unfold well_formed. rewrite P.
  split; [now apply clean_is_digits|]. split; [exact L|].
  exists (selectedCountry (run initial es)). now repeat split.
Qed.

(** X9.  Whatever text the phone input's [onChange] receives, a request
    sent by a submit that follows carries exactly the digits of that text,
    in their order; and the request is sent when those digits are 6 to 15
    in number. *)
Theorem typed_digits_are_what_is_sent
        (st : State) (value : string) (sessionId : JSON) (o : CallOutcome) :
  Forall (fun r => phone_number r = delete_all not_digit value)
         (snd (fst (handleSubmit (onChange st value) sessionId o)))
  /\ (6 <= String.length (delete_all not_digit value) <= 15 ->
      exists r, snd (fst (handleSubmit (onChange st value) sessionId o)) = [r]).
Proof.
  assert (N : phoneNumber (onChange st value)
              = delete_all neither_digit_nor_space value).
  { unfold onChange. destruct (status st); reflexivity. }
  split.
  - eapply Forall_impl; [|apply handleSubmit_requests].
    intros r (P & _). now rewrite P, N, clean_of_filtered.
  - intros L. unfold handleSubmit. rewrite N, clean_of_filtered.
    destruct (String.length (delete_all not_digit value) <? 6)%nat eqn:A;
      [apply Nat.ltb_lt in A; lia|].
    destruct (15 <? String.length (delete_all not_digit value))%nat eqn:B;
      [apply Nat.ltb_lt in B; lia|].
    cbn [orb]. destruct o as [[m|]|[d|]|]; eexists; reflexivity.
Qed.

(** X10.  When the call request, if one is made, has settled,
    [handleSubmit] has ended with the status [success] if the phone number
    is valid and the response was OK, and with the status [error] in every
    other case; it has called [onSuccess] and scheduled [onClose] in three
    seconds in the first case and asked nothing of the parent in the
    others; it has made one request if the number is valid and none
    otherwise; and on success the error message is empty. *)
Theorem handleSubmit_ends_in_success_or_error
        (st : State) (sessionId : JSON) (o : CallOutcome) :
  let after := fst (fst (handleSubmit st sessionId o)) in
  let requests := snd (fst (handleSubmit st sessionId o)) in
  let effects := snd (handleSubmit st sessionId o) in
  status after = (if valid_number st && accepted o then success else error)
  /\ effects = (if valid_number st && accepted o
                then [onSuccess; onClose_after_3000ms] else [])
  /\ length requests = (if valid_number st then 1 else 0)
  /\ (if valid_number st && accepted o then errorMessage after = "" else True).
Proof.
  intros after requests effects. subst after requests effects.
  unfold handleSubmit, valid_number.
  set (n := String.length (delete_all isWhiteSpace (phoneNumber st))).
  destruct (Nat.ltb_spec n 6) as [A|A].
  - cbn [orb]. replace (6 <=? n)%nat with false
      by (symmetry; apply Nat.leb_gt; lia).
    now repeat split.
  - replace (6 <=? n)%nat with true by (symmetry; apply Nat.leb_le; lia).
    destruct (Nat.ltb_spec 15 n) as [B|B]; cbn [orb andb].
    + replace (n <=? 15)%nat with false by (symmetry; apply Nat.leb_gt; lia).
      now repeat split.
    + replace (n <=? 15)%nat with true by (symmetry; apply Nat.leb_le; lia).
      destruct o as [[m|]|[d|]|]; now repeat split.
Qed.

End CallbackRequestFacts.

(* ================================================================== *)
(** * VoiceInterface.tsx *)
(* ================================================================== *)

Section VoiceMoreFacts.

Import VoiceInterface.

(** X11.  [processAudio] always ends with the processing flag down, and
    what it asks and shows is settled by the two answers it gets.  Without
    a transcript to go on with, it asks for the transcription only and the
    transcript of the conversation stays as it was.  With one, it asks the
    chat for it, with the session it holds, and shows it as the user
    message.  Then without an answer of the chat (the request fails, the
    response is not OK, its body cannot be read or is [null]) nothing else
    is asked, the user message stays unanswered and the error is set; with
    an answer, whatever its shape, the assistant message shows its
    [response], the same value is sent to be spoken, and the error is left
    as it was, however the speech turns out. *)
Theorem processAudio_asks_in_order_and_shows_answers
        (st : State) (audioBlob : Blob) (tr : TranscribeOutcome)
        (clk clk' : Clock) (ch : ChatOutcome) (p : Playback) :
  let result := processAudio st audioBlob tr clk ch clk' p in
  isProcessing (fst result) = false
  /\ match heard tr with
     | None =>
         snd result = [Transcribe audioBlob]
         /\ messages (fst result) = messages st
     | Some transcript =>
         exists u,
           role u = user /\ content u = Some (JString transcript)
           /\ match answered ch with
              | None =>
                  snd result = [Transcribe audioBlob;
                                Chat transcript (sessionId st)]
                  /\ messages (fst result) = messages st ++ [u]
                  /\ error (fst result) = Some error_occurred
              | Some chatData =>
                  exists a,
                    role a = assistant
                    /\ content a = property chatData "response"
                    /\ snd result = [Transcribe audioBlob;
                                     Chat transcript (sessionId st);
                                     Synthesize (property chatData "response")]
                    /\ messages (fst result) = messages st ++ [u; a]
                    /\ error (fst result) = error st
              end
     end.
Proof.
  intros result. subst result. unfold processAudio, heard.
  destruct tr as [|[|] [data|]]; try (split; [reflexivity|now split]).
  destruct data as [| | | | |members]; try (split; [reflexivity|now split]).
  destruct (property (JObject members) "transcript") as [[| | |t| |]|];
    try (split; [reflexivity|now split]).
  destruct (String.eqb (trim t) ""); [split; [reflexivity|now split]|].
  set (u := {| id := Number_toString (Date_now clk); role := user;
               content := Some (JString t); timestamp := new_Date clk |}).
  assert (Unanswered :
    isProcessing (processAudio_catch
                    (setMessages (fun prev => prev ++ [u])
                                 (setIsProcessing true st))) = false
    /\ exists u0, role u0 = user /\ content u0 = Some (JString t)
         /\ [Transcribe audioBlob] ++ [Chat t (sessionId st)]
            = [Transcribe audioBlob; Chat t (sessionId st)]
         /\ messages (processAudio_catch
                        (setMessages (fun prev => prev ++ [u])
                                     (setIsProcessing true st)))
            = messages st ++ [u0]
         /\ error (processAudio_catch
                     (setMessages (fun prev => prev ++ [u])
                                  (setIsProcessing true st)))
            = Some error_occurred).
  { split; [reflexivity|]. exists u. now repeat split. }
  destruct ch as [|[|] [chatData|]]; cbn [answered fst snd]; try exact Unanswered.
  destruct chatData; try exact Unanswered;
    (split; [destruct p; reflexivity|]; exists u;
     split; [reflexivity|]; split; [reflexivity|];
     eexists {| id := Number_toString (Date_now clk' + 1); role := assistant;
                content := _; timestamp := new_Date clk' |};
     destruct p; destruct (no_session (sessionId st)); cbn;
     rewrite <- app_assoc; repeat split).
Qed.

Lemma take_round_session_kept (st : State) (r : Round) :
  no_session (sessionId st) = false ->
  sessionId (fst (take_round st r)) = sessionId st
  /\ Forall (names_session (sessionId st)) (snd (take_round st r)).
Proof.
  intros S. unfold take_round, processAudio.
  destruct (round_transcription r) as [|[|] [data|]];
    try (split; [reflexivity|now repeat constructor]).
  destruct data as [| | | | |members];
    try (split; [reflexivity|now repeat constructor]).
  destruct (property (JObject members) "transcript") as [[| | |t| |]|];
    try (split; [reflexivity|now repeat constructor]).
  destruct (String.eqb (trim t) ""); [split; [reflexivity|now repeat constructor]|].
  destruct (round_chat r) as [|[|] [chatData|]];
    try (split; [reflexivity|now repeat constructor]).
  destruct chatData; try (split; [reflexivity|now repeat constructor]);
    rewrite S; destruct (round_playback r); cbn;
    (split; [reflexivity|now repeat constructor]).
Qed.

(** X12.  Once the voice interface holds a session, every utterance
    processed afterwards leaves that session in place and every chat
    request names it, whatever session the answers name. *)
Theorem voice_session_is_kept (st : State) (rs : list Round) :
  no_session (sessionId st) = false ->
  sessionId (fst (rounds st rs)) = sessionId st
  /\ Forall (names_session (sessionId st)) (snd (rounds st rs)).
Proof.
  revert st; induction rs as [|r rs IH]; intros st S.
  - split; [reflexivity|constructor].
  - cbn [rounds]. destruct (take_round_session_kept st r S) as [A B].
    destruct (take_round st r) as [st1 asked1]. cbn [fst snd] in A, B.
    assert (S1 : no_session (sessionId st1) = false) by now rewrite A.
    destruct (IH st1 S1) as [C D].
    destruct (rounds st1 rs) as [st2 asked2]. cbn [fst snd] in *.
    split; [congruence|]. apply Forall_app. split; [exact B|]. now rewrite <- A.
Qed.

Lemma recording_data (bs : list Blob) (s : Studio) :
  recording s (map DataAvailable bs)
  = {| view := view s; mediaRecorderRef := mediaRecorderRef s;
       audioChunksRef := audioChunksRef s ++ filter has_data bs;
       handed := handed s |}.
Proof.
  revert s; induction bs as [|b bs IH]; intros s.
  - cbn. rewrite app_nil_r. now destruct s.
  - unfold recording in *. cbn [map fold_left record filter].
    destruct (has_data b).
    + rewrite IH. cbn. now rewrite <- app_assoc.
    + apply IH.
Qed.

(** X13.  Whatever the refs held before, a recording that is granted the
    microphone hands to [processAudio], when the recorder stops, exactly
    the non-empty chunks delivered since its own start (before and after
    the release), joined in their order; and the recording flag is down
    after the release. *)
Theorem recording_hands_over_its_own_audio
        (s : Studio) (held released : list Blob) :
  let s' := recording s
              (MicrophoneSettled Granted :: map DataAvailable held
                 ++ Released :: map DataAvailable released ++ [Stopped]) in
  handed s' = handed s ++ [concat (filter has_data (held ++ released))]
  /\ isRecording (view s') = false.
Proof.
  intros s'. subst s'. unfold recording. cbn [fold_left record].
  rewrite fold_left_app. fold (recording
    {| view := setIsRecording true (view s); mediaRecorderRef := true;
       audioChunksRef := []; handed := handed s |} (map DataAvailable held)).
  rewrite recording_data. cbn [fold_left record view mediaRecorderRef
    audioChunksRef handed isRecording setIsRecording andb app].
  rewrite fold_left_app.
  match goal with
  | |- context [fold_left record (map DataAvailable released) ?x] =>
      fold (recording x (map DataAvailable released))
  end.
  rewrite recording_data. cbn. rewrite filter_app. now split.
Qed.

End VoiceMoreFacts.

(* ================================================================== *)
(** * More theorems at sample inputs *)
(* ================================================================== *)

Lemma suggested_question_is_sent_as_written_sample :
  ChatInterface.shows_welcome
    (ChatInterface.ui (ChatInterface.run Sample.JSON_parse ChatInterface.start []))
  = true
  /\ ChatInterface.sent
       (ChatInterface.step Sample.JSON_parse
          (ChatInterface.run Sample.JSON_parse ChatInterface.start [])
          (ChatInterface.Send "Tell me about the Nissan Juke" Sample.noon))
     = [{| ChatInterface.message := "Tell me about the Nissan Juke";
           ChatInterface.session_id := JNull |}].
Proof.
  split; [reflexivity|].
  exact (proj2 (proj2
    (suggested_question_is_sent_as_written Sample.JSON_parse []
       "Tell me about the Nissan Juke" Sample.noon eq_refl
       (or_intror (or_introl eq_refl))))).
Defined.

Lemma session_is_set_once_sample :
  ChatInterface.sends_follow_render true
    (Sample.first_turn_events ++ Sample.second_turn_events) = true
  /\ ChatInterface.sessionId
       (ChatInterface.ui
          (ChatInterface.run Sample.JSON_parse ChatInterface.start
             Sample.first_turn_events))
     = JString "s-1"
  /\ ChatInterface.sessionId
       (ChatInterface.ui
          (ChatInterface.run Sample.JSON_parse
             (ChatInterface.run Sample.JSON_parse ChatInterface.start
                Sample.first_turn_events)
             Sample.second_turn_events))
     = ChatInterface.sessionId
         (ChatInterface.ui
            (ChatInterface.run Sample.JSON_parse ChatInterface.start
               Sample.first_turn_events)).
Proof.
  split; [reflexivity|]. split; [reflexivity|].
  exact (proj1
    (session_is_set_once Sample.JSON_parse Sample.first_turn_events
       Sample.second_turn_events eq_refl eq_refl)).
Defined.

Lemma loading_flag_tracks_request_in_flight_sample :
  ChatInterface.sends_follow_render true [ChatInterface.Send "hi" Sample.noon] = true
  /\ ChatInterface.isLoading
       (ChatInterface.ui
          (ChatInterface.run Sample.JSON_parse ChatInterface.start
             [ChatInterface.Send "hi" Sample.noon]))
     = true
  /\ ChatInterface.in_flight
       (ChatInterface.run Sample.JSON_parse ChatInterface.start
          [ChatInterface.Send "hi" Sample.noon])
     = 1.
Proof.
  split; [reflexivity|]. split; [reflexivity|].
  exact (proj1 (proj1
    (loading_flag_tracks_request_in_flight Sample.JSON_parse
       [ChatInterface.Send "hi" Sample.noon] eq_refl)) eq_refl).
Defined.

Lemma streaming_bubble_follows_loading_sample :
  ChatInterface.sends_follow_render true Sample.first_turn_events = true
  /\ ChatInterface.shows_streaming
       (ChatInterface.ui
          (ChatInterface.run Sample.JSON_parse ChatInterface.start
             Sample.first_turn_events))
     = ChatInterface.isLoading
         (ChatInterface.ui
            (ChatInterface.run Sample.JSON_parse ChatInterface.start
               Sample.first_turn_events)).
Proof.
  split; [reflexivity|].
  exact (proj2
    (streaming_bubble_follows_loading Sample.JSON_parse Sample.first_turn_events)
    eq_refl).
Defined.

Lemma transcript_takes_turns_sample :
  ChatInterface.sends_follow_render true
    (Sample.first_turn_events ++ Sample.second_turn_events) = true
  /\ ChatInterface.alternates ChatInterface.user
       (ChatInterface.messages
          (ChatInterface.ui
             (ChatInterface.run Sample.JSON_parse ChatInterface.start
                (Sample.first_turn_events ++ Sample.second_turn_events))))
     = true.
Proof.
  split; [reflexivity|].
  exact (proj1
    (transcript_takes_turns Sample.JSON_parse
       (Sample.first_turn_events ++ Sample.second_turn_events) eq_refl)).
Defined.



Lemma message_ids_are_distinct_sample :
  ChatInterface.paced 0 [Sample.first_turn]
  /\ NoDup (map ChatInterface.id
              (ChatInterface.messages
                 (fst (ChatInterface.conversation Sample.JSON_parse
                         ChatInterface.initial [Sample.first_turn])))).
Proof.
  assert (P : ChatInterface.paced 0 [Sample.first_turn])
    by (cbn; repeat split; lia).
  split; [exact P|].
  exact (message_ids_are_distinct Sample.JSON_parse [Sample.first_turn] 0%Z P).
Defined.

Lemma readers_agree_up_to_sentinel_sample :
  Api.payloads_trimmed Sample.two_chunks = true
  /\ fst (Api.streamChatMessage Sample.JSON_parse
            (streamed Sample.two_chunks EndOfStream))
     = ChatInterface.events_of_lines Sample.JSON_parse
         (Api.before_sentinel (Api.event_lines Sample.two_chunks)).
Proof.
  split; [reflexivity|].
  exact (proj1
    (readers_agree_up_to_sentinel Sample.JSON_parse Sample.two_chunks
       EndOfStream eq_refl)).
Defined.

Lemma typed_digits_are_what_is_sent_sample :
  delete_all CallbackForm.not_digit "(07911) 123-456" = "07911123456"
  /\ exists r,
       snd (fst (CallbackForm.handleSubmit
                   (CallbackForm.onChange CallbackForm.initial "(07911) 123-456")
                   JNull CallbackForm.CallAccepted))
       = [r].
Proof.
  split; [reflexivity|].
  apply (proj2
    (typed_digits_are_what_is_sent CallbackForm.initial "(07911) 123-456"
       JNull CallbackForm.CallAccepted)).
  vm_compute. lia.
Defined.

Lemma voice_session_is_kept_sample :
  VoiceInterface.no_session
    (VoiceInterface.sessionId Sample.voice_in_session) = false
  /\ VoiceInterface.sessionId
       (fst (VoiceInterface.rounds Sample.voice_in_session
               [Sample.utterance; Sample.utterance]))
     = Some (JString "s-1").
Proof.
  split; [reflexivity|].
  exact (proj1
    (voice_session_is_kept Sample.voice_in_session
       [Sample.utterance; Sample.utterance] eq_refl)).
Defined.
